(** * polymarket-mcp: the request handler of [api/mcp.js]

    A shallow embedding of the single source file of the repository: the
    upstream client [callPolymarketAPI], the tool executor [executeTool], the
    SSE helper [sendSSEMessage] and the exported [handler], followed by the
    properties the specification states about them.

    JavaScript values are a tree type, exceptions an error monad, the fetch
    API and the engine-defined parts of the language (wording of built-in
    errors, locale formatting, members of the built-in prototypes) an
    explicit environment. *)

From Stdlib Require Import ZArith Bool String Ascii List Lia DecimalString.
From Stdlib Require Import Floats.PrimFloat Floats.FloatOps Floats.SpecFloat Uint63.
Import ListNotations.
Set Warnings "-register-all".
Local Open Scope list_scope.
Local Open Scope string_scope.

(** ** Values *)

(** What an expression of the source can evaluate to.  A parsed JSON document
    uses [VNull] to [VObj]; [VUndefined] is what reading a missing property
    yields; [VNative k] stands for the built-in member [k] that a computed
    property read finds on a prototype.  Numbers are binary64 floats, strings
    sequences of code units, an object the list of its own properties in
    insertion order. *)
Inductive value : Type :=
| VUndefined
| VNull
| VBool (b : bool)
| VNum (x : float)
| VStr (s : string)
| VArr (elems : list value)
| VObj (props : list (string * value))
| VNative (name : string).

(** A thrown [Error] object: its [name] and its [message]. *)
Record exn : Type := mkExn { exn_name : string; exn_message : string }.

Inductive completion (A : Type) : Type :=
| Ok (a : A)
| Throw (e : exn).
Arguments Ok {A} a.
Arguments Throw {A} e.

Definition bind {A B : Type} (r : completion A) (k : A -> completion B) : completion B :=
  match r with
  | Ok a => k a
  | Throw e => Throw e
  end.

Notation "x <- c ;; k" := (bind c (fun x => k))
  (at level 61, c at next level, right associativity).

(** [try { body } catch (error) { handler }] *)
Definition try_catch {A : Type} (body : completion A) (handler : exn -> completion A) : completion A :=
  match body with
  | Ok a => Ok a
  | Throw e => handler e
  end.

(** [new Error(msg)] *)
Definition Error (msg : string) : exn := mkExn "Error" msg.

(** [Error.prototype.toString] *)
Definition exn_toString (e : exn) : string :=
  if exn_name e =? "" then exn_message e
  else if exn_message e =? "" then exn_name e
  else exn_name e ++ ": " ++ exn_message e.

(** The faults the engine itself raises while running the source, each a
    [TypeError] whose wording is the engine's. *)
Inductive fault : Type :=
| ReadOfNullish (base : value) (key : string)
| NotCallable (callee : string)
| NotPrimitive
| StreamClosed.

(** ** The environment *)

Record Engine : Type := mkEngine {
  (** [Number::toString] outside the integers of magnitude at most 2^53 *)
  shortestDecimal : float -> string;
  (** [Number.prototype.toLocaleString()] in the host's locale *)
  Number_toLocaleString : float -> string;
  (** whether a key names a member a value inherits from its prototypes *)
  inherited : value -> string -> bool;
  (** the string a built-in member converts to *)
  nativeSource : string -> string;
  (** the message of an engine-raised [TypeError] *)
  faultMessage : fault -> string
}.

Definition LF : string := String "010" "".
Definition DQ : string := String "034" "".

Definition hexDigit (d : nat) : string :=
  substring d 1 "0123456789abcdef".

Definition decimal (n : N) : string := NilZero.string_of_uint (N.to_uint n).

Definition numOfNat (n : nat) : float := PrimFloat.of_uint63 (Uint63.of_Z (Z.of_nat n)).

Definition nullish (v : value) : bool :=
  match v with
  | VUndefined | VNull => true
  | _ => false
  end.

Fixpoint assoc (k : string) (props : list (string * value)) : option value :=
  match props with
  | [] => None
  | (k', v) :: rest => if k' =? k then Some v else assoc k rest
  end.

Definition hasOwn (props : list (string * value)) (k : string) : bool :=
  match assoc k props with
  | Some _ => true
  | None => false
  end.

(** [obj[k] = v] on a plain object: replaces in place, else appends. *)
Fixpoint setProp (props : list (string * value)) (k : string) (v : value)
  : list (string * value) :=
  match props with
  | [] => [(k, v)]
  | (k', v') :: rest =>
      if k' =? k then (k', v) :: rest else (k', v') :: setProp rest k v
  end.

(** ** Numbers *)

Definition two53 : Z := 9007199254740992.

(** The integer a finite float [m * 2^e] equals, when it is one of magnitude
    at most 2^53. *)
Definition safeInteger (m : positive) (e : Z) : option N :=
  let z :=
    if (0 <=? e)%Z then Some (Z.pos m * 2 ^ e)%Z
    else if (Z.pos m mod 2 ^ (- e) =? 0)%Z then Some (Z.pos m / 2 ^ (- e))%Z
    else None in
  match z with
  | Some n => if (n <=? two53)%Z then Some (Z.to_N n) else None
  | None => None
  end.

Definition ToBoolean (v : value) : bool :=
  match v with
  | VUndefined | VNull => false
  | VBool b => b
  | VNum x => negb (PrimFloat.is_zero x || PrimFloat.is_nan x)
  | VStr s => negb (s =? "")
  | VArr _ | VObj _ | VNative _ => true
  end.

(** [a || b] and [a && b]: the right operand is evaluated only when the left
    one does not decide. *)
Definition or_else (a b : completion value) : completion value :=
  v <- a ;; if ToBoolean v then Ok v else b.
Definition and_then (a b : completion value) : completion value :=
  v <- a ;; if ToBoolean v then b else Ok v.

(** [v === 0] *)
Definition strictEqZero (v : value) : bool :=
  match v with
  | VNum x => PrimFloat.eqb x PrimFloat.zero
  | _ => false
  end.

(** [v !== undefined] *)
Definition notUndefined (v : value) : bool :=
  match v with
  | VUndefined => false
  | _ => true
  end.

Fixpoint zeros (n : nat) : string :=
  match n with
  | O => ""
  | S n' => "0" ++ zeros n'
  end.

Section WithEngine.

Variable E : Engine.

Definition TypeError {A : Type} (f : fault) : completion A :=
  Throw (mkExn "TypeError" (faultMessage E f)).

(** [Number::toString] *)
Definition Number_toString (x : float) : string :=
  match Prim2SF x with
  | S754_nan => "NaN"
  | S754_zero _ => "0"
  | S754_infinity false => "Infinity"
  | S754_infinity true => "-Infinity"
  | S754_finite s m e =>
      match safeInteger m e with
      | Some n => (if s then "-" else "") ++ decimal n
      | None => shortestDecimal E x
      end
  end.

(** [Number.prototype.toFixed(f)], for [0 <= f <= 100]. *)
Definition toFixed (x : float) (f : nat) : string :=
  let fixedDigits (n : Z) : string :=
    let m := decimal (Z.to_N n) in
    match f with
    | O => m
    | S _ =>
        let m := if (String.length m <=? f)%nat
                 then zeros (f + 1 - String.length m) ++ m else m in
        let k := String.length m in
        substring 0 (k - f) m ++ "." ++ substring (k - f) f m
    end in
  match Prim2SF x with
  | S754_finite s m e =>
      let sign := if s then "-" else "" in
      let tenf := (10 ^ Z.of_nat f)%Z in
      if (0 <=? e)%Z then
        if (10 ^ 21 <=? Z.pos m * 2 ^ e)%Z
        then sign ++ Number_toString (PrimFloat.abs x)
        else sign ++ fixedDigits (Z.pos m * 2 ^ e * tenf)%Z
      else
        if (10 ^ 21 * 2 ^ (- e) <=? Z.pos m)%Z
        then sign ++ Number_toString (PrimFloat.abs x)
        else sign ++ fixedDigits
               ((2 * Z.pos m * tenf + 2 ^ (- e)) / 2 ^ (1 - e))%Z
  | S754_zero _ => fixedDigits 0%Z
  | _ => Number_toString x
  end.

(** [ToString], as a template literal applies it.  An array joins its
    elements with a comma, [undefined] and [null] as the empty string; an
    object whose own [toString] property shadows the inherited method has no
    primitive value. *)
Fixpoint ToString (v : value) : completion string :=
  match v with
  | VUndefined => Ok "undefined"
  | VNull => Ok "null"
  | VBool b => Ok (if b then "true" else "false")
  | VNum x => Ok (Number_toString x)
  | VStr s => Ok s
  | VArr elems =>
      (fix join (l : list value) : completion string :=
         match l with
         | [] => Ok ""
         | x :: rest =>
             s <- (if nullish x then Ok "" else ToString x) ;;
             match rest with
             | [] => Ok s
             | _ :: _ => r <- join rest ;; Ok (s ++ "," ++ r)
             end
         end) elems
  | VObj props =>
      if hasOwn props "toString" then TypeError NotPrimitive
      else Ok "[object Object]"
  | VNative k => Ok (nativeSource E k)
  end.

(** [v.toLocaleString()] *)
Fixpoint toLocaleString (callee : string) (v : value) : completion string :=
  match v with
  | VUndefined | VNull => TypeError (ReadOfNullish v "toLocaleString")
  | VBool b => Ok (if b then "true" else "false")
  | VNum x => Ok (Number_toLocaleString E x)
  | VStr s => Ok s
  | VArr elems =>
      (fix join (l : list value) : completion string :=
         match l with
         | [] => Ok ""
         | x :: rest =>
             s <- (if nullish x then Ok "" else toLocaleString "toLocaleString" x) ;;
             match rest with
             | [] => Ok s
             | _ :: _ => r <- join rest ;; Ok (s ++ "," ++ r)
             end
         end) elems
  | VObj props =>
      if hasOwn props "toLocaleString" then TypeError (NotCallable callee)
      else if hasOwn props "toString" then TypeError (NotCallable "toString")
      else Ok "[object Object]"
  | VNative k => Ok (nativeSource E k)
  end.

(** A template substitution [${e}]. *)
Definition interpolate (e : completion value) : completion string :=
  v <- e ;; ToString v.

(** *** Property reads *)

(** [v.k] for a key written in the source.  None of those keys names a
    member of a built-in prototype, so only own properties answer, and
    [length] on arrays and strings. *)
Definition GetV (v : value) (k : string) : completion value :=
  match v with
  | VUndefined | VNull => TypeError (ReadOfNullish v k)
  | VObj props =>
      Ok match assoc k props with Some x => x | None => VUndefined end
  | VArr elems =>
      Ok (if k =? "length" then VNum (numOfNat (List.length elems)) else VUndefined)
  | VStr s =>
      Ok (if k =? "length" then VNum (numOfNat (String.length s)) else VUndefined)
  | VBool _ | VNum _ | VNative _ => Ok VUndefined
  end.

(** The array index a canonical numeric key denotes. *)
Definition arrayIndex (k : string) : option nat :=
  match NilEmpty.uint_of_string k with
  | Some u =>
      let n := N.of_uint u in
      if decimal n =? k then Some (N.to_nat n) else None
  | None => None
  end.

Definition inheritedOr (v : value) (k : string) : value :=
  if inherited E v k then VNative k else VUndefined.

(** [v[k]] for a key computed at run time, already converted to a string:
    own properties first, then whatever the prototypes provide. *)
Definition GetComputed (v : value) (k : string) : completion value :=
  match v with
  | VUndefined | VNull => TypeError (ReadOfNullish v k)
  | VObj props =>
      Ok match assoc k props with Some x => x | None => inheritedOr v k end
  | VArr elems =>
      Ok match arrayIndex k with
         | Some i =>
             match nth_error elems i with Some x => x | None => inheritedOr v k end
         | None =>
             if k =? "length" then VNum (numOfNat (List.length elems))
             else inheritedOr v k
         end
  | VStr s =>
      Ok match arrayIndex k with
         | Some i =>
             match String.get i s with
             | Some c => VStr (String c "")
             | None => inheritedOr v k
             end
         | None =>
             if k =? "length" then VNum (numOfNat (String.length s))
             else inheritedOr v k
         end
  | VBool _ | VNum _ | VNative _ => Ok (inheritedOr v k)
  end.

(** *** Iteration *)

(** [Array.prototype.map] with a callback that may throw. *)
Fixpoint mapM {A B : Type} (f : A -> completion B) (l : list A) : completion (list B) :=
  match l with
  | [] => Ok []
  | x :: rest => y <- f x ;; ys <- mapM f rest ;; Ok (y :: ys)
  end.

(** [Array.prototype.forEach] with a callback that appends to the string
    variable [result] of the enclosing scope; [i] is the index of the head. *)
Fixpoint forEach {A : Type} (f : A -> nat -> string -> completion string)
         (i : nat) (l : list A) (acc : string) : completion string :=
  match l with
  | [] => Ok acc
  | x :: rest => acc' <- f x i acc ;; forEach f (S i) rest acc'
  end.

(** ** The upstream client *)

(** A URL under construction: the string handed to [new URL] and the pairs
    appended to its [searchParams]. *)
Record url : Type := mkUrl {
  href : string;
  searchParams : list (string * string)
}.

(** What [fetch] resolves to: the status line and the two readers of the
    body the source uses. *)
Record fetched : Type := mkFetched {
  fetched_status : nat;
  fetched_text : completion string;
  fetched_json : completion value
}.

(** [response.ok] *)
Definition fetched_ok (r : fetched) : bool :=
  (200 <=? fetched_status r)%nat && (fetched_status r <=? 299)%nat.

(** The network: [fetch] rejects or resolves. *)
Variable fetch : url -> completion fetched.

Definition baseUrl : string := "https://gamma-api.polymarket.com".

(** The [forEach] over [Object.keys(params)]: [undefined] and [null] are
    skipped, every other value is appended as a string. *)
Fixpoint appendParams (params : list (string * value)) (acc : list (string * string))
  : completion (list (string * string)) :=
  match params with
  | [] => Ok acc
  | (key, v) :: rest =>
      if nullish v then appendParams rest acc
      else s <- ToString v ;; appendParams rest (acc ++ [(key, s)])%list
  end.

Definition callPolymarketAPI (endpoint : string) (params : option (list (string * value)))
  : completion value :=
  query <- match params with
           | Some ps => appendParams ps []
           | None => Ok []
           end ;;
  let u := mkUrl (baseUrl ++ endpoint) query in
  try_catch
    (response <- fetch u ;;
     if negb (fetched_ok response) then
       errorText <- fetched_text response ;;
       Throw (Error ("Polymarket API error: "
                       ++ decimal (N.of_nat (fetched_status response))
                       ++ " - " ++ errorText))
     else fetched_json response)
    (fun error => Throw error).

(** ** Tool execution *)

Definition notFound : string :=
  "Market not found. Please check the market ID or slug.".

Definition status_of (closed : value) : string :=
  if ToBoolean closed then "Closed" else "Open".

(** The [Outcome Prices] substitution of [get-market-info]. *)
Definition outcomePrices (data : value) : completion string :=
  outcomes <- GetV data "outcomes" ;;
  if ToBoolean outcomes then
    match outcomes with
    | VArr os =>
        parts <- mapM (fun o =>
                   name <- ToString o ;;
                   prices <- GetV data "outcomeprices" ;;
                   price <- interpolate
                              (or_else (GetComputed prices name) (Ok (VStr "N/A"))) ;;
                   Ok (name ++ ": $" ++ price)) os ;;
        Ok (String.concat ", " parts)
    | _ => TypeError (NotCallable "data.outcomes.map")
    end
  else Ok "N/A".

Definition marketInfo (data : value) : completion string :=
  title <- interpolate (or_else (GetV data "question")
                       (or_else (GetV data "title") (Ok (VStr "N/A")))) ;;
  category <- interpolate (or_else (GetV data "category") (Ok (VStr "N/A"))) ;;
  closed <- GetV data "closed" ;;
  endDate <- interpolate (or_else (GetV data "end_date_iso") (Ok (VStr "N/A"))) ;;
  volume <- (v <- or_else (GetV data "volume") (Ok (VNum 0)) ;;
             toLocaleString "(data.volume || 0).toLocaleString" v) ;;
  liquidity <- (v <- or_else (GetV data "liquidity") (Ok (VNum 0)) ;;
                toLocaleString "(data.liquidity || 0).toLocaleString" v) ;;
  prices <- outcomePrices data ;;
  description <- interpolate (or_else (GetV data "description")
                                (Ok (VStr "No description available"))) ;;
  Ok ("Title: " ++ title ++ LF
      ++ "Category: " ++ category ++ LF
      ++ "Status: " ++ status_of closed ++ LF
      ++ "End Date: " ++ endDate ++ LF
      ++ "Volume: $" ++ volume ++ LF
      ++ "Liquidity: $" ++ liquidity ++ LF
      ++ "Outcome Prices: " ++ prices ++ LF
      ++ "Description: " ++ description).

(** The query object of [list-markets]. *)
Definition listMarketsParams (args : value) : completion (list (string * value)) :=
  let params := [] in
  closed <- GetV args "closed" ;;
  let params := if notUndefined closed then setProp params "closed" closed else params in
  limit <- GetV args "limit" ;;
  let params := if ToBoolean limit then setProp params "limit" limit else params in
  offset <- GetV args "offset" ;;
  let params := if ToBoolean offset then setProp params "offset" offset else params in
  Ok params.

Definition noMarkets : string := "No markets found with the specified criteria.".

(** One round of the [forEach] of [list-markets]. *)
Definition marketEntry (market : value) (index : nat) (result : string) : completion string :=
  title <- interpolate (or_else (GetV market "question")
                       (or_else (GetV market "title") (Ok (VStr "Untitled Market")))) ;;
  id <- interpolate (or_else (GetV market "condition_id")
                    (or_else (GetV market "id") (Ok (VStr "N/A")))) ;;
  closed <- GetV market "closed" ;;
  volume <- (v <- or_else (GetV market "volume") (Ok (VNum 0)) ;;
             toLocaleString "(market.volume || 0).toLocaleString" v) ;;
  endDate <- interpolate (or_else (GetV market "end_date_iso") (Ok (VStr "N/A"))) ;;
  Ok (result
      ++ Number_toString (PrimFloat.add (numOfNat index) 1) ++ ". " ++ title ++ LF
      ++ "   ID: " ++ id ++ LF
      ++ "   Status: " ++ status_of closed ++ LF
      ++ "   Volume: $" ++ volume ++ LF
      ++ "   End Date: " ++ endDate ++ LF
      ++ "---" ++ LF).

Definition marketList (data : value) : completion string :=
  empty <- (if negb (ToBoolean data) then Ok true
            else len <- GetV data "length" ;; Ok (strictEqZero len)) ;;
  if (empty : bool) then Ok noMarkets
  else
    count <- interpolate (GetV data "length") ;;
    let result := "Found " ++ count ++ " markets:" ++ LF ++ LF in
    match data with
    | VArr markets => forEach marketEntry 0 markets result
    | _ => TypeError (NotCallable "data.forEach")
    end.

(** [price.toFixed(4)] and [(price * 100).toFixed(1)] on a price read from
    the payload: only a number has the method. *)
Definition priceLine (label : string) (price : value) : completion string :=
  match price with
  | VNum p =>
      Ok (label ++ ": $" ++ toFixed p 4
          ++ " (" ++ toFixed (PrimFloat.mul p 100) 1 ++ "%)" ++ LF)
  | _ => TypeError (NotCallable "price.toFixed")
  end.

Definition marketPrices (data : value) : completion string :=
  title <- interpolate (or_else (GetV data "question")
                       (or_else (GetV data "title") (Ok (VStr "Unknown Market")))) ;;
  let result := "Market: " ++ title ++ LF ++ LF in
  both <- and_then (GetV data "outcomes") (GetV data "outcomeprices") ;;
  if ToBoolean both then
    let result := result ++ "Current Prices:" ++ LF in
    outcomes <- GetV data "outcomes" ;;
    match outcomes with
    | VArr os =>
        forEach (fun outcome (_ : nat) result =>
                   prices <- GetV data "outcomeprices" ;;
                   key <- ToString outcome ;;
                   price <- or_else (GetComputed prices key) (Ok (VNum 0)) ;;
                   line <- priceLine key price ;;
                   Ok (result ++ line)) 0 os result
    | _ => TypeError (NotCallable "data.outcomes.forEach")
    end
  else
    tokens <- GetV data "tokens" ;;
    match tokens with
    | VArr ts =>
        let result := result ++ "Current Prices:" ++ LF in
        forEach (fun token (_ : nat) result =>
                   price <- or_else (GetV token "price") (Ok (VNum 0)) ;;
                   label <- interpolate (GetV token "outcome") ;;
                   line <- priceLine label price ;;
                   Ok (result ++ line)) 0 ts result
    | _ => Ok (result ++ "No price data available for this market.")
    end.

(** The body of the [try] of [executeTool]: the [switch] on the tool name. *)
(** The [default] arm of the [switch]. *)
Definition unknownTool (name : value) : completion string :=
  shown <- ToString name ;;
  Throw (Error ("Unknown tool: " ++ shown)).

(** The body of the [try] of [executeTool]: the [switch] on the tool name,
    which compares with [===]. *)
Definition runTool (name args : value) : completion string :=
  match name with
  | VStr tool =>
      if tool =? "get-market-info" then
        id <- interpolate (GetV args "market_id") ;;
        data <- callPolymarketAPI ("/markets/" ++ id) None ;;
        if negb (ToBoolean data) then Ok notFound else marketInfo data
      else if tool =? "list-markets" then
        params <- listMarketsParams args ;;
        data <- callPolymarketAPI "/markets" (Some params) ;;
        marketList data
      else if tool =? "get-market-prices" then
        id <- interpolate (GetV args "market_id") ;;
        data <- callPolymarketAPI ("/markets/" ++ id) None ;;
        if negb (ToBoolean data) then Ok notFound else marketPrices data
      else unknownTool name
  | _ => unknownTool name
  end.

Definition executeTool (name args : value) : completion string :=
  try_catch (runTool name args)
            (fun error => Ok ("Error: " ++ exn_message error)).

(** ** JSON text *)

(** [QuoteJSONString], one code unit at a time. *)
Definition quoteUnit (c : ascii) : string :=
  let n := nat_of_ascii c in
  if (n =? 34)%nat then "\" ++ DQ
  else if (n =? 92)%nat then "\\"
  else if (n =? 8)%nat then "\b"
  else if (n =? 9)%nat then "\t"
  else if (n =? 10)%nat then "\n"
  else if (n =? 12)%nat then "\f"
  else if (n =? 13)%nat then "\r"
  else if (n <? 32)%nat then "\u00" ++ hexDigit (n / 16) ++ hexDigit (n mod 16)
  else String c "".

Fixpoint quoteUnits (s : string) : string :=
  match s with
  | EmptyString => ""
  | String c rest => quoteUnit c ++ quoteUnits rest
  end.

Definition QuoteJSONString (s : string) : string := DQ ++ quoteUnits s ++ DQ.

Definition finite (x : float) : bool :=
  negb (PrimFloat.is_nan x || PrimFloat.is_infinity x).

(** [JSON.stringify(v)]; [None] is the [undefined] it returns for a value
    with no JSON text.  A property without text is left out of an object and
    written [null] in an array. *)
Fixpoint JSON_stringify (v : value) : option string :=
  match v with
  | VUndefined | VNative _ => None
  | VNull => Some "null"
  | VBool b => Some (if b then "true" else "false")
  | VNum x => Some (if finite x then Number_toString x else "null")
  | VStr s => Some (QuoteJSONString s)
  | VArr elems =>
      Some ("[" ++ String.concat ","
              ((fix items (l : list value) : list string :=
                  match l with
                  | [] => []
                  | x :: rest =>
                      match JSON_stringify x with
                      | Some t => t
                      | None => "null"
                      end :: items rest
                  end) elems) ++ "]")
  | VObj props =>
      Some ("{" ++ String.concat ","
              ((fix members (l : list (string * value)) : list string :=
                  match l with
                  | [] => []
                  | (k, x) :: rest =>
                      match JSON_stringify x with
                      | Some t => (QuoteJSONString k ++ ":" ++ t) :: members rest
                      | None => members rest
                      end
                  end) props) ++ "}")
  end.

(** ** The event stream *)

(** The [signal] of a request when the handler runs: there is none, or
    there is one, which has already aborted or not. *)
Inductive signal : Type :=
| NoSignal
| Signal (aborted : bool).

(** A stream of the [/sse] endpoint: the chunks enqueued so far, whether
    the [keepAlive] interval is still set, whether the stream is closed, and
    whether an abort listener waits on a signal that can still abort. *)
Record sse : Type := mkSse {
  frames : list string;
  keepAlive : bool;
  closed : bool;
  abortListener : bool
}.

(** [controller.enqueue(encoder.encode(chunk))]: throws on a closed stream. *)
Definition enqueue (chunk : string) (st : sse) : completion sse :=
  if closed st then TypeError StreamClosed
  else Ok (mkSse (frames st ++ [chunk])%list (keepAlive st) (closed st) (abortListener st)).

(** [controller.close()]: throws on a closed stream. *)
Definition close (st : sse) : completion sse :=
  if closed st then TypeError StreamClosed
  else Ok (mkSse (frames st) (keepAlive st) true (abortListener st)).

Definition setInterval (st : sse) : sse :=
  mkSse (frames st) true (closed st) (abortListener st).

Definition clearInterval (st : sse) : sse :=
  mkSse (frames st) false (closed st) (abortListener st).

(** [signal.addEventListener('abort', ...)]: the event is dispatched when
    the signal aborts, so a listener added to a signal that has aborted
    already is never called. *)
Definition addAbortListener (aborted : bool) (st : sse) : sse :=
  mkSse (frames st) (keepAlive st) (closed st) (negb aborted).

Definition sendSSEMessage (data : value) (st : sse) : completion sse :=
  let message :=
    "data: " ++ match JSON_stringify data with
                | Some t => t
                | None => "undefined"
                end ++ LF ++ LF in
  enqueue message st.

Definition established : value :=
  VObj [("jsonrpc", VStr "2.0"); ("method", VStr "connection.established")].

(** [start(controller)] of the stream, for the [req.signal] at hand. *)
Definition start (s : signal) : completion sse :=
  st <- sendSSEMessage established (mkSse [] false false false) ;;
  let st := setInterval st in
  Ok match s with
     | Signal aborted => addAbortListener aborted st
     | NoSignal => st
     end.

(** The interval callback. *)
Definition keepAliveTick (st : sse) : sse :=
  match enqueue (": keepalive" ++ LF ++ LF) st with
  | Ok st' => st'
  | Throw _ => clearInterval st
  end.

(** The abort listener. *)
Definition onAbort (st : sse) : sse :=
  let st := clearInterval st in
  match close st with
  | Ok st' => st'
  | Throw _ => st
  end.

(** What can happen to an open stream: the interval elapses, the request's
    signal aborts, the consumer cancels the stream. *)
Inductive event : Type := Tick | Abort | Cancel.

(** The event loop runs the interval callback only while the interval is
    set, and the abort listener only if one was registered. *)
Definition fire (st : sse) (ev : event) : sse :=
  match ev with
  | Tick => if keepAlive st then keepAliveTick st else st
  | Abort => if abortListener st then onAbort st else st
  | Cancel => mkSse (frames st) (keepAlive st) true (abortListener st)
  end.

Definition run (st : sse) (evs : list event) : sse := fold_left fire evs st.

(** ** The handler *)

Definition marketIdSchema (description : string) : value :=
  VObj [("type", VStr "object");
        ("properties",
          VObj [("market_id",
                  VObj [("type", VStr "string"); ("description", VStr description)])]);
        ("required", VArr [VStr "market_id"])].

(** The constant [tools]. *)
Definition tools : value :=
  VArr [
    VObj [("name", VStr "get-market-info");
          ("description",
            VStr "Get detailed information about a specific prediction market");
          ("inputSchema",
            marketIdSchema
              "Market ID or slug (e.g., 'will-bitcoin-reach-100k-by-2024')")];
    VObj [("name", VStr "list-markets");
          ("description",
            VStr "List available prediction markets with filtering options");
          ("inputSchema",
            VObj [("type", VStr "object");
                  ("properties",
                    VObj [("closed",
                            VObj [("type", VStr "boolean");
                                  ("description",
                                    VStr "Filter by market status (true for closed, false for open)");
                                  ("default", VBool false)]);
                          ("limit",
                            VObj [("type", VStr "integer");
                                  ("description", VStr "Number of markets to return");
                                  ("default", VNum 10);
                                  ("minimum", VNum 1);
                                  ("maximum", VNum 100)]);
                          ("offset",
                            VObj [("type", VStr "integer");
                                  ("description",
                                    VStr "Number of markets to skip (for pagination)");
                                  ("default", VNum 0);
                                  ("minimum", VNum 0)])])])];
    VObj [("name", VStr "get-market-prices");
          ("description",
            VStr "Get current prices and trading information for a specific market");
          ("inputSchema", marketIdSchema "Market ID or slug")]
  ].

(** A request as the handler reads it: its method, the [pathname] of its
    URL, what [req.json()] resolves to, and its [signal]. *)
Record request : Type := mkRequest {
  req_method : string;
  req_pathname : string;
  req_json : completion value;
  req_signal : signal
}.

(** The body given to [new Response]: [BodyJSON v] is the text
    [JSON.stringify(v)], kept as the object it was made from. *)
Inductive body : Type :=
| BodyNull
| BodyText (text : string)
| BodyJSON (v : value)
| BodyStream (stream : sse).

Record response : Type := mkResponse {
  status : nat;
  headers : list (string * string);
  response_body : body
}.

(** [String.prototype.endsWith] *)
Definition endsWith (s suffix : string) : bool :=
  let n := String.length s in
  let m := String.length suffix in
  (m <=? n)%nat && (substring (n - m) m s =? suffix).

Definition corsHeaders : list (string * string) :=
  [("Access-Control-Allow-Origin", "*");
   ("Access-Control-Allow-Methods", "GET, POST, OPTIONS");
   ("Access-Control-Allow-Headers", "*")].

Definition initializeResult : value :=
  VObj [("protocolVersion", VStr "0.1.0");
        ("capabilities", VObj [("tools", VObj []); ("prompts", VObj [])]);
        ("serverInfo",
          VObj [("name", VStr "polymarket-mcp"); ("version", VStr "1.0.0")])].

(** [{ content: [{ type: "text", text }] }] *)
Definition textContent (text : string) : value :=
  VObj [("content", VArr [VObj [("type", VStr "text"); ("text", VStr text)]])].

(** The [tools/call] arm: the log line converts the tool name to a string
    before the tool runs. *)
Definition toolsCall (message : value) (response : list (string * value))
  : completion value :=
  callRequest <- GetV message "params" ;;
  _ <- interpolate (GetV callRequest "name") ;;
  _ <- GetV callRequest "arguments" ;;
  name <- GetV callRequest "name" ;;
  args <- or_else (GetV callRequest "arguments") (Ok (VObj [])) ;;
  result <- executeTool name args ;;
  Ok (VObj (setProp response "result" (textContent result))).

(** The [default] arm. *)
Definition methodNotFound (method : value) (response : list (string * value))
  : completion value :=
  shown <- ToString method ;;
  Ok (VObj (setProp response "error"
              (VObj [("code", VNum (-32601));
                     ("message", VStr ("Method not found: " ++ shown))]))).

(** The [try] block of the [/messages] branch up to the end of its
    [switch]: the object [response]. *)
Definition handleMessage (req : request) : completion value :=
  message <- req_json req ;;
  id <- GetV message "id" ;;
  let response := [("jsonrpc", VStr "2.0"); ("id", id)] in
  method <- GetV message "method" ;;
  match method with
  | VStr m =>
      if m =? "initialize" then
        Ok (VObj (setProp response "result" initializeResult))
      else if m =? "tools/list" then
        Ok (VObj (setProp response "result" (VObj [("tools", tools)])))
      else if m =? "tools/call" then toolsCall message response
      else if m =? "prompts/list" then
        Ok (VObj (setProp response "result" (VObj [("prompts", VArr [])])))
      else methodNotFound method response
  | _ => methodNotFound method response
  end.

(** The object the [catch] of the [/messages] branch serialises. *)
Definition internalError (error : exn) : value :=
  VObj [("jsonrpc", VStr "2.0");
        ("error",
          VObj [("code", VNum (-32603));
                ("message", VStr "Internal error");
                ("data", VStr (exn_toString error))])].

Definition jsonHeaders : list (string * string) :=
  (corsHeaders ++ [("Content-Type", "application/json")])%list.

Definition banner : string :=
  "Polymarket MCP Server - Working! Use /sse endpoint for SSE connection.".

Definition handler (req : request) : completion response :=
  if req_method req =? "OPTIONS" then Ok (mkResponse 200 corsHeaders BodyNull)
  else if endsWith (req_pathname req) "/sse" then
    stream <- start (req_signal req) ;;
    Ok (mkResponse 200
          (corsHeaders ++ [("Content-Type", "text/event-stream");
                           ("Cache-Control", "no-cache");
                           ("Connection", "keep-alive")])%list
          (BodyStream stream))
  else if endsWith (req_pathname req) "/messages" && (req_method req =? "POST") then
    try_catch
      (response <- handleMessage req ;;
       Ok (mkResponse 200 jsonHeaders (BodyJSON response)))
      (fun error => Ok (mkResponse 500 jsonHeaders (BodyJSON (internalError error))))
  else Ok (mkResponse 200 corsHeaders (BodyText banner)).

(** The value a client finds under [k] after parsing the body, [VUndefined]
    when the text has no such member. *)
Definition bodyField (b : body) (k : string) : value :=
  match b with
  | BodyJSON (VObj props) =>
      match assoc k props with
      | Some (VNative _) | None => VUndefined
      | Some x => x
      end
  | _ => VUndefined
  end.

End WithEngine.

Arguments callPolymarketAPI : simpl never.
Arguments listMarketsParams : simpl never.
Arguments marketInfo : simpl never.
Arguments marketList : simpl never.
Arguments marketPrices : simpl never.
Arguments interpolate : simpl never.

(** ** JSON documents *)

(** The values [JSON.parse] produces: no [undefined], no built-in member. *)
Fixpoint isJSON (v : value) : bool :=
  match v with
  | VUndefined | VNative _ => false
  | VNull | VBool _ | VNum _ | VStr _ => true
  | VArr elems =>
      (fix all (l : list value) : bool :=
         match l with
         | [] => true
         | x :: rest => isJSON x && all rest
         end) elems
  | VObj props =>
      (fix all (l : list (string * value)) : bool :=
         match l with
         | [] => true
         | (_, x) :: rest => isJSON x && all rest
         end) props
  end.

(** The names the [switch] statements of the source compare with. *)
Definition rpcMethods : list string :=
  ["initialize"; "tools/list"; "tools/call"; "prompts/list"].

Definition toolNames : list string :=
  ["get-market-info"; "list-markets"; "get-market-prices"].

(** The invariant as the specification words it: whatever the handler
    answers to a parsed request carries the [id] of that request. *)
Definition echoesId (E : Engine) (fetch : url -> completion fetched) (req : request)
  : Prop :=
  forall message resp,
    req_json req = Ok message ->
    handler E fetch req = Ok resp ->
    GetV E message "id" = Ok (bodyField (response_body resp) "id").

(** The text of a failed upstream call, as [callPolymarketAPI] words it. *)
Definition apiError (status : nat) (errorText : string) : string :=
  "Polymarket API error: " ++ decimal (N.of_nat status) ++ " - " ++ errorText.

(** The first chunk of every event stream. *)
Definition establishedFrame : string :=
  "data: {" ++ DQ ++ "jsonrpc" ++ DQ ++ ":" ++ DQ ++ "2.0" ++ DQ ++ ","
    ++ DQ ++ "method" ++ DQ ++ ":" ++ DQ ++ "connection.established" ++ DQ ++ "}"
    ++ LF ++ LF.

(** One line of the price list of [get-market-prices]. *)
Definition priceText (E : Engine) (entry : string * float) : string :=
  fst entry ++ ": $" ++ toFixed E (snd entry) 4
    ++ " (" ++ toFixed E (PrimFloat.mul (snd entry) 100) 1 ++ "%)" ++ LF.

(** A stream whose interval is cleared and which is closed. *)
Definition stopped (st : sse) : Prop :=
  keepAlive st = false /\ closed st = true.

(** The price list: one line per outcome, in order. *)
Definition priceLines (E : Engine) (entries : list (string * float)) : string :=
  fold_right String.append "" (map (priceText E) entries).

(** [data.outcomeprices[outcome] || 0] *)
Definition priceOrZero (E : Engine) (prices : value) (key : string) : completion value :=
  or_else (GetComputed E prices key) (Ok (VNum 0)).

(** ** A sample environment

    An engine worded like V8 and a network that answers every URL alike, to
    run the definitions on concrete requests. *)
Module Sample.

Definition objectPrototype : list string :=
  ["constructor"; "hasOwnProperty"; "isPrototypeOf"; "propertyIsEnumerable";
   "toLocaleString"; "toString"; "valueOf"; "__proto__"].

Definition nullishName (v : value) : string :=
  match v with
  | VNull => "null"
  | _ => "undefined"
  end.

Definition engine : Engine :=
  mkEngine
    (fun _ => "?")
    (fun _ => "?")
    (fun _ k => existsb (String.eqb k) objectPrototype)
    (fun k => "function " ++ k ++ "() { [native code] }")
    (fun f =>
       match f with
       | ReadOfNullish base key =>
           "Cannot read properties of " ++ nullishName base
             ++ " (reading '" ++ key ++ "')"
       | NotCallable callee => callee ++ " is not a function"
       | NotPrimitive => "Cannot convert object to primitive value"
       | StreamClosed => "Invalid state: Controller is already closed"
       end).

(** A network whose every answer has the given status, text and JSON. *)
Definition answering (status : nat) (text : string) (json : value)
  : url -> completion fetched :=
  fun _ => Ok (mkFetched status (Ok text) (Ok json)).

Definition post (message : value) : request :=
  mkRequest "POST" "/api/messages" (Ok message) (Signal false).

(** The doubles nearest 0.6 and 0.4. *)
Definition p06 : float := 0x1.3333333333333p-1.


(** A payload with outcomes and no [outcomeprices]. *)
Definition unpriced : value :=
  VObj [("question", VStr "Q"); ("outcomes", VArr [VStr "Yes"])].

Definition call (id : value) (tool : string) (args : value) : value :=
  VObj [("jsonrpc", VStr "2.0"); ("id", id); ("method", VStr "tools/call");
        ("params", VObj [("name", VStr tool); ("arguments", args)])].

(** More sample requests and payloads. *)

Definition idle : url -> completion fetched := answering 200 "" VNull.

Definition unparsed : request :=
  mkRequest "POST" "/api/messages"
            (Throw (mkExn "SyntaxError" "Unexpected end of JSON input"))
            (Signal false).

(** An object that cannot be converted to a string. *)
Definition opaque : value := VObj [("toString", VNull)].

Definition rpc (id : value) (method : value) : value :=
  VObj [("jsonrpc", VStr "2.0"); ("id", id); ("method", method)].

(** [prompts/list] with id 7. *)
Definition prompts : request := post (rpc (VNum 7) (VStr "prompts/list")).

Definition callNamed (name : value) : value :=
  VObj [("jsonrpc", VStr "2.0"); ("id", VNum 1); ("method", VStr "tools/call");
        ("params", VObj [("name", name)])].

(** A network on which every [fetch] rejects. *)
Definition offline : url -> completion fetched :=
  fun _ => Throw (mkExn "TypeError" "fetch failed").

(** A payload priced through [tokens]. *)
Definition tokenized : value :=
  VObj [("title", VStr "T");
        ("tokens", VArr [VObj [("outcome", VStr "Yes"); ("price", VNum p06)];
                         VObj [("outcome", VStr "No")]])].

(** A payload with nothing to price. *)
Definition bare : value := VObj [("question", VStr "Q")].

(** A payload whose prices are strings. *)
Definition quoted : value :=
  VObj [("question", VStr "Q");
        ("outcomes", VArr [VStr "Yes"]);
        ("outcomeprices", VObj [("Yes", VStr "0.6")])].

(** A payload whose outcomes are one string. *)
Definition packed : value :=
  VObj [("question", VStr "Q"); ("outcomes", VStr "[Yes, No]")].

(** A payload with a zero price and a missing one. *)
Definition partial : value :=
  VObj [("outcomes", VArr [VStr "Yes"; VStr "No"; VStr "Maybe"]);
        ("outcomeprices", VObj [("Yes", VStr "0.6"); ("No", VNum 0)])].

Definition flat : list (string * value) :=
  [("question", VStr "Q"); ("closed", VBool true); ("volume", VNum 1500);
   ("category", VNull)].

Definition opened : sse := mkSse [establishedFrame] true false true.

(** A request whose method cannot be converted to a string. *)
Definition opaqueMethod : request := post (rpc (VNum 1) opaque).

(** A payload with an outcome named after a member every object inherits. *)
Definition inheritedName : value :=
  VObj [("question", VStr "Q");
        ("outcomes", VArr [VStr "toString"]);
        ("outcomeprices", VObj [("Yes", VNum p06)])].

(** A request for the stream whose signal has aborted already. *)
Definition abortedEarly : request :=
  mkRequest "GET" "/api/sse" (Ok VNull) (Signal true).


End Sample.

(** ** Further notions for the properties *)

(** The chunk the interval callback enqueues. *)
Definition keepaliveFrame : string := ": keepalive" ++ LF ++ LF.

(** One entry of the [Outcome Prices] line of [get-market-info]: a name and
    the text shown for its price. *)
Definition outcomeText (entry : string * string) : string :=
  fst entry ++ ": $" ++ snd entry.

(** Whether a text is free of line feeds. *)
Fixpoint noLF (s : string) : bool :=
  match s with
  | EmptyString => true
  | String c rest => negb (Ascii.eqb c "010") && noLF rest
  end.

(** The two tools that look one market up. *)
Definition marketTools : list string := ["get-market-info"; "get-market-prices"].

(** Structural induction on values, through arrays and objects. *)
Fixpoint value_induction (P : value -> Prop)
         (Hundefined : P VUndefined) (Hnull : P VNull)
         (Hbool : forall b, P (VBool b)) (Hnum : forall x, P (VNum x))
         (Hstr : forall s, P (VStr s))
         (Harr : forall elems, Forall P elems -> P (VArr elems))
         (Hobj : forall props, Forall (fun p => P (snd p)) props -> P (VObj props))
         (Hnative : forall k, P (VNative k))
         (v : value) {struct v} : P v :=
  match v with
  | VUndefined => Hundefined
  | VNull => Hnull
  | VBool b => Hbool b
  | VNum x => Hnum x
  | VStr s => Hstr s
  | VArr elems =>
      Harr elems
        ((fix all (l : list value) : Forall P l :=
            match l with
            | [] => Forall_nil P
            | x :: rest =>
                Forall_cons x
                  (value_induction P Hundefined Hnull Hbool Hnum Hstr Harr Hobj Hnative x)
                  (all rest)
            end) elems)
  | VObj props =>
      Hobj props
        ((fix all (l : list (string * value)) : Forall (fun p => P (snd p)) l :=
            match l with
            | [] => Forall_nil _
            | p :: rest =>
                Forall_cons p
                  (value_induction P Hundefined Hnull Hbool Hnum Hstr Harr Hobj Hnative
                                   (snd p))
                  (all rest)
            end) props)
  | VNative k => Hnative k
  end.

(** The values with no members of their own: [undefined], [null],
    booleans, numbers and strings. *)
Definition primitive (v : value) : bool :=
  match v with
  | VUndefined | VNull | VBool _ | VNum _ | VStr _ => true
  | VArr _ | VObj _ | VNative _ => false
  end.

(** ** What is sent *)

(** The text of a body: [BodyJSON v] stands for [JSON.stringify(v)]. *)
Definition sentText (E : Engine) (b : body) : option string :=
  match b with
  | BodyText text => Some text
  | BodyJSON v => JSON_stringify E v
  | BodyNull | BodyStream _ => None
  end.

(** The members [JSON.stringify] writes for the properties of an object:
    a property without JSON text is left out. *)
Fixpoint memberTexts (E : Engine) (props : list (string * value)) : list string :=
  match props with
  | [] => []
  | (k, x) :: rest =>
      match JSON_stringify E x with
      | Some t => (QuoteJSONString k ++ ":" ++ t) :: memberTexts E rest
      | None => memberTexts E rest
      end
  end.

(** A text between double quotes. *)
Definition inQuotes (s : string) : string := DQ ++ s ++ DQ.

(** The [id] member of an answer, as sent: none when the request had no
    [id]. *)
Definition idMember (E : Engine) (id : value) : list string :=
  match JSON_stringify E id with
  | Some t => [inQuotes "id" ++ ":" ++ t]
  | None => []
  end.

(** ** The statements the code does not meet, as the specification words
    them *)


(** A method outside the four names gets HTTP 200 with an error of code
    -32601 and no result. *)
Definition answersMethodNotFound (E : Engine) (fetch : url -> completion fetched)
           (req : request) : Prop :=
  forall message method,
    req_json req = Ok message ->
    GetV E message "method" = Ok method ->
    (forall m, In m rpcMethods -> method <> VStr m) ->
    exists resp msg,
      handler E fetch req = Ok resp /\
      status resp = 200 /\
      bodyField (response_body resp) "error" =
        VObj [("code", VNum (-32601)); ("message", VStr msg)] /\
      bodyField (response_body resp) "result" = VUndefined.




(** A [tools/call] naming none of the three tools is answered with HTTP 200
    and no [error] member. *)
Definition answeredWithResult (E : Engine) (fetch : url -> completion fetched)
           (req : request) : Prop :=
  forall message callRequest name resp,
    req_json req = Ok message ->
    GetV E message "method" = Ok (VStr "tools/call") ->
    GetV E message "params" = Ok callRequest ->
    GetV E callRequest "name" = Ok name ->
    (forall tool, In tool toolNames -> name <> VStr tool) ->
    handler E fetch req = Ok resp ->
    status resp = 200 /\ bodyField (response_body resp) "error" = VUndefined.

(** * Properties *)

(** ** Strings *)

Lemma substring_substring (s : string) :
  forall a b c, substring b c (substring a (b + c) s) = substring (a + b) c s.
Proof.
  induction s as [|ch s IH]; intros a b c.
  - destruct a, b, c; reflexivity.
  - destruct a as [|a].
    + destruct b as [|b].
      * destruct c as [|c]; [reflexivity|].
        simpl. f_equal. apply (IH 0 0 c).
      * simpl. apply (IH 0 b c).
    + simpl. apply IH.
Qed.

Lemma endsWith_suffix (s suffix : string) :
  endsWith s suffix = true ->
  String.length suffix <= String.length s /\
  substring (String.length s - String.length suffix) (String.length suffix) s = suffix.
Proof.
  unfold endsWith. intros H. apply andb_true_iff in H. destruct H as [Hlen Heq].
  split; [now apply Nat.leb_le | now apply String.eqb_eq].
Qed.

(** A path that ends with [/messages] does not end with [/sse]. *)
Lemma messages_not_sse (path : string) :
  endsWith path "/messages" = true -> endsWith path "/sse" = false.
Proof.
  intros H. apply endsWith_suffix in H. destruct H as [Hlen Hsub].
  simpl String.length in *.
  unfold endsWith. simpl String.length.
  apply andb_false_iff. right. apply String.eqb_neq. intros Habs.
  assert (Hsplit : String.length path - 4 = (String.length path - 9) + 5) by lia.
  rewrite Hsplit, <- (substring_substring path (String.length path - 9) 5 4) in Habs.
  simpl Nat.add in Habs. rewrite Hsub in Habs. discriminate Habs.
Qed.

Lemma append_nil_r (s : string) : s ++ "" = s.
Proof. induction s as [|c s IH]; simpl; [reflexivity | now rewrite IH]. Qed.

Lemma append_assoc (s t u : string) : (s ++ t) ++ u = s ++ (t ++ u).
Proof. induction s as [|c s IH]; simpl; [reflexivity | now rewrite IH]. Qed.

Lemma not_in_eqb (s : string) (l : list string) :
  ~ In s l -> forall t, In t l -> (s =? t) = false.
Proof.
  intros Hnot t Hin. apply String.eqb_neq. intros ->. now apply Hnot.
Qed.

(** Closes a goal whose next step is an upstream call known to throw. *)
Ltac upstream_throws H :=
  match goal with
  | |- context [callPolymarketAPI ?E ?fetch ?endpoint ?params] =>
      let e := fresh "e" in
      let He := fresh "He" in
      destruct (H endpoint params) as [e He]; rewrite He; simpl; eauto
  end.

Section Properties.

Variable E : Engine.
Variable fetch : url -> completion fetched.

(** ** Property reads *)

Lemma GetV_ok (v : value) (k : string) :
  nullish v = false -> exists x, GetV E v k = Ok x.
Proof.
  destruct v; simpl; intros H; try discriminate; eauto.
Qed.

Lemma GetV_ok_inv (v x : value) (k : string) :
  GetV E v k = Ok x -> nullish v = false.
Proof.
  destruct v; simpl; intros H; try reflexivity; discriminate H.
Qed.

(** Only an object has a string under a key other than [length]. *)
Lemma GetV_string_inv (v : value) (k s : string) :
  GetV E v k = Ok (VStr s) ->
  exists props, v = VObj props /\ assoc k props = Some (VStr s).
Proof.
  destruct v; simpl; intros H; try discriminate H.
  - destruct (k =? "length"); discriminate H.
  - destruct (k =? "length"); discriminate H.
  - exists props. split; [reflexivity|].
    destruct (assoc k props); inversion H; reflexivity.
Qed.

(** ** Routing *)

(** What the handler does with a POST to a path ending in [/messages]. *)
Lemma handler_messages (req : request) :
  req_method req = "POST" ->
  endsWith (req_pathname req) "/messages" = true ->
  handler E fetch req =
    match handleMessage E fetch req with
    | Ok response => Ok (mkResponse 200 jsonHeaders (BodyJSON response))
    | Throw error => Ok (mkResponse 500 jsonHeaders (BodyJSON (internalError error)))
    end.
Proof.
  intros Hmethod Hpath. unfold handler.
  rewrite Hmethod, (messages_not_sse _ Hpath), Hpath. simpl.
  destruct (handleMessage E fetch req); reflexivity.
Qed.

(** ** The tool executor *)

(** [executeTool] resolves whatever its [switch] does. *)
Lemma executeTool_resolves (name args : value) :
  exists text, executeTool E fetch name args = Ok text.
Proof.
  unfold executeTool, try_catch.
  destruct (runTool E fetch name args); eauto.
Qed.

Lemma executeTool_catches (name args : value) (error : exn) :
  runTool E fetch name args = Throw error ->
  executeTool E fetch name args = Ok ("Error: " ++ exn_message error).
Proof.
  intros H. unfold executeTool. rewrite H. reflexivity.
Qed.

Lemma runTool_unknown (name : string) (args : value) :
  ~ In name toolNames ->
  runTool E fetch (VStr name) args = Throw (Error ("Unknown tool: " ++ name)).
Proof.
  intros Hnot. unfold runTool.
  rewrite !(not_in_eqb _ _ Hnot) by (simpl; auto).
  reflexivity.
Qed.

(** The [tools/call] arm on a request whose [params] name a tool by a
    string: a result wrapping the text of [executeTool]. *)
Lemma toolsCall_text (message callRequest : value) (tool : string)
      (response : list (string * value)) :
  GetV E message "params" = Ok callRequest ->
  GetV E callRequest "name" = Ok (VStr tool) ->
  exists args text,
    or_else (GetV E callRequest "arguments") (Ok (VObj [])) = Ok args /\
    executeTool E fetch (VStr tool) args = Ok text /\
    toolsCall E fetch message response =
      Ok (VObj (setProp response "result" (textContent text))).
Proof.
  intros Hparams Hname.
  destruct (GetV_ok callRequest "arguments" (GetV_ok_inv _ _ _ Hname)) as [a Ha].
  set (args := if ToBoolean a then a else VObj []).
  destruct (executeTool_resolves (VStr tool) args) as [text Htext].
  exists args, text. split; [|split].
  - unfold or_else. rewrite Ha. simpl. subst args.
    destruct (ToBoolean a); reflexivity.
  - exact Htext.
  - unfold toolsCall, interpolate, or_else.
    rewrite Hparams. simpl. rewrite Hname. simpl. rewrite Ha. simpl.
    fold args.
    replace (if ToBoolean a then Ok a else Ok (VObj [])) with (Ok args)
      by (subst args; destruct (ToBoolean a); reflexivity).
    simpl. rewrite Htext. reflexivity.
Qed.

(** What the handler answers to a [tools/call] whose [params] name a tool
    by a string. *)
Lemma handler_tools_call (req : request) (message callRequest : value) (tool : string) :
  req_method req = "POST" ->
  endsWith (req_pathname req) "/messages" = true ->
  req_json req = Ok message ->
  GetV E message "method" = Ok (VStr "tools/call") ->
  GetV E message "params" = Ok callRequest ->
  GetV E callRequest "name" = Ok (VStr tool) ->
  exists id args text,
    GetV E message "id" = Ok id /\
    or_else (GetV E callRequest "arguments") (Ok (VObj [])) = Ok args /\
    executeTool E fetch (VStr tool) args = Ok text /\
    handler E fetch req =
      Ok (mkResponse 200 jsonHeaders
            (BodyJSON (VObj [("jsonrpc", VStr "2.0"); ("id", id);
                             ("result", textContent text)]))).
Proof.
  intros Hpost Hpath Hjson Hmethod Hparams Hname.
  destruct (GetV_ok message "id" (GetV_ok_inv _ _ _ Hmethod)) as [id Hid].
  destruct (toolsCall_text message callRequest tool
              [("jsonrpc", VStr "2.0"); ("id", id)] Hparams Hname)
    as (args & text & Hargs & Htext & Hcall).
  exists id, args, text. repeat split; try assumption.
  rewrite (handler_messages req Hpost Hpath).
  unfold handleMessage. rewrite Hjson. simpl. rewrite Hid. simpl.
  rewrite Hmethod. simpl. rewrite Hcall. reflexivity.
Qed.

(** ** The upstream client *)

Lemma callPolymarketAPI_non2xx (endpoint : string) (f : fetched) (errorText : string) :
  (forall u, fetch u = Ok f) ->
  fetched_ok f = false ->
  fetched_text f = Ok errorText ->
  callPolymarketAPI E fetch endpoint None =
    Throw (Error (apiError (fetched_status f) errorText)).
Proof.
  intros Hfetch Hok Htext. unfold callPolymarketAPI. simpl.
  rewrite Hfetch. simpl. rewrite Hok. simpl. rewrite Htext. reflexivity.
Qed.

Lemma callPolymarketAPI_fails (f : fetched) :
  (forall u, fetch u = Ok f) ->
  fetched_ok f = false ->
  forall endpoint params, exists e, callPolymarketAPI E fetch endpoint params = Throw e.
Proof.
  intros Hfetch Hok endpoint params. unfold callPolymarketAPI.
  destruct (match params with Some ps => appendParams E ps [] | None => Ok [] end)
    as [query|e]; simpl; [|eauto].
  rewrite Hfetch. simpl. rewrite Hok. simpl.
  destruct (fetched_text f); simpl; eauto.
Qed.

(** With the upstream failing, each of the three tools throws inside
    [executeTool]. *)
Lemma runTool_upstream_fails (f : fetched) (tool : string) (args : value) :
  (forall u, fetch u = Ok f) ->
  fetched_ok f = false ->
  In tool toolNames ->
  exists e, runTool E fetch (VStr tool) args = Throw e.
Proof.
  intros Hfetch Hok Hin.
  pose proof (callPolymarketAPI_fails f Hfetch Hok) as Hcall.
  simpl in Hin. destruct Hin as [<-|[<-|[<-|[]]]]; unfold runTool; simpl.
  - destruct (interpolate E (GetV E args "market_id")) as [id|e]; simpl; [|eauto].
    upstream_throws Hcall.
  - destruct (listMarketsParams E args) as [params|e]; simpl; [|eauto].
    upstream_throws Hcall.
  - destruct (interpolate E (GetV E args "market_id")) as [id|e]; simpl; [|eauto].
    upstream_throws Hcall.
Qed.

(** ** The claims on dispatch and tool failures *)

(** C9. A POST to [/messages] with method [tools/call] and no [params]
    throws on reading [params.name]: the answer is HTTP 500 with the
    envelope of code -32603, which has no [result]. *)
Theorem C9_tools_call_without_params (req : request) (message : value) :
  req_method req = "POST" ->
  endsWith (req_pathname req) "/messages" = true ->
  req_json req = Ok message ->
  GetV E message "method" = Ok (VStr "tools/call") ->
  GetV E message "params" = Ok VUndefined ->
  (forall response,
      toolsCall E fetch message response
      = TypeError E (ReadOfNullish VUndefined "name")) /\
  exists resp,
    handler E fetch req = Ok resp /\
    status resp = 500 /\
    response_body resp =
      BodyJSON (VObj [("jsonrpc", VStr "2.0");
                      ("error",
                        VObj [("code", VNum (-32603));
                              ("message", VStr "Internal error");
                              ("data",
                                VStr (exn_toString
                                        (mkExn "TypeError"
                                           (faultMessage E
                                              (ReadOfNullish VUndefined "name")))))])]) /\
    bodyField (response_body resp) "result" = VUndefined.
Proof.
  intros Hpost Hpath Hjson Hmethod Hparams.
  destruct (GetV_ok message "id" (GetV_ok_inv _ _ _ Hmethod)) as [id Hid].
  split.
  - intros response. unfold toolsCall. rewrite Hparams. reflexivity.
  - eexists. split.
    + rewrite (handler_messages req Hpost Hpath).
      unfold handleMessage. rewrite Hjson. simpl. rewrite Hid. simpl.
      rewrite Hmethod. simpl. unfold toolsCall. rewrite Hparams. simpl.
      reflexivity.
    + repeat split.
Qed.

(** ** The request id *)

Lemma assoc_isJSON (props : list (string * value)) (k : string) (x : value) :
  isJSON (VObj props) = true -> assoc k props = Some x -> isJSON x = true.
Proof.
  induction props as [|[k' v] rest IH]; simpl; intros Hjson Hassoc.
  - discriminate Hassoc.
  - apply andb_true_iff in Hjson. destruct Hjson as [Hv Hrest].
    destruct (k' =? k).
    + inversion Hassoc; subst; exact Hv.
    + now apply IH.
Qed.

(** Reading a key of a JSON document never yields a built-in member. *)
Lemma GetV_not_native (v x : value) (k : string) :
  isJSON v = true -> GetV E v k = Ok x -> forall n, x <> VNative n.
Proof.
  intros Hjson Hget n ->.
  destruct v; simpl in Hget; try discriminate Hget.
  - destruct (k =? "length"); discriminate Hget.
  - destruct (k =? "length"); discriminate Hget.
  - destruct (assoc k props) as [y|] eqn:Hassoc; inversion Hget; subst.
    pose proof (assoc_isJSON props k _ Hjson Hassoc) as Hn. discriminate Hn.
Qed.

(** Every object the [switch] completes with starts with the version tag
    and the [id] read from the request. *)
Lemma handleMessage_ok (req : request) (response : value) :
  handleMessage E fetch req = Ok response ->
  exists message id rest,
    req_json req = Ok message /\
    GetV E message "id" = Ok id /\
    response = VObj (("jsonrpc", VStr "2.0") :: ("id", id) :: rest).
Proof.
  unfold handleMessage. intros H.
  destruct (req_json req) as [message|] eqn:Hjson; simpl in H; [|discriminate H].
  destruct (GetV E message "id") as [id|] eqn:Hid; simpl in H; [|discriminate H].
  destruct (GetV E message "method") as [method|] eqn:Hmethod; simpl in H;
    [|discriminate H].
  exists message, id.
  assert (Hdefault : forall r, methodNotFound E method
                                 [("jsonrpc", VStr "2.0"); ("id", id)] = Ok r ->
            exists rest, r = VObj (("jsonrpc", VStr "2.0") :: ("id", id) :: rest)).
  { unfold methodNotFound. intros r Hr.
    destruct (ToString E method); simpl in Hr; inversion Hr. eauto. }
  assert (Hcall : forall r, toolsCall E fetch message
                              [("jsonrpc", VStr "2.0"); ("id", id)] = Ok r ->
            exists rest, r = VObj (("jsonrpc", VStr "2.0") :: ("id", id) :: rest)).
  { unfold toolsCall. intros r Hr.
    repeat match type of Hr with
           | bind ?c _ = Ok _ => destruct c; simpl in Hr; [|discriminate Hr]
           end.
    inversion Hr. eauto. }
  enough (exists rest, response = VObj (("jsonrpc", VStr "2.0") :: ("id", id) :: rest))
    as [rest Hrest] by (exists rest; auto).
  destruct method; try (now apply Hdefault).
  destruct (s =? "initialize"); [inversion H; eauto|].
  destruct (s =? "tools/list"); [inversion H; eauto|].
  destruct (s =? "tools/call"); [now apply Hcall|].
  destruct (s =? "prompts/list"); [inversion H; eauto|].
  now apply Hdefault.
Qed.

(** ** [list-markets] *)

(** The client itself drops a [null] when it builds the URL. *)
Remark appendParams_skips_null (key : string) (rest : list (string * value))
       (acc : list (string * string)) :
  appendParams E ((key, VNull) :: rest) acc = appendParams E rest acc.
Proof. reflexivity. Qed.

(** C7. When the upstream answer to [list-markets] is absent or an empty
    array, the tool resolves to exactly
    ["No markets found with the specified criteria."]. *)
Theorem C7_no_markets (args : value) (params : list (string * value)) (data : value) :
  listMarketsParams E args = Ok params ->
  callPolymarketAPI E fetch "/markets" (Some params) = Ok data ->
  data = VUndefined \/ data = VNull \/ data = VArr [] ->
  marketList E data = Ok "No markets found with the specified criteria." /\
  executeTool E fetch (VStr "list-markets") args =
    Ok "No markets found with the specified criteria.".
Proof.
  intros Hparams Hcall Hdata.
  assert (Hlist : marketList E data = Ok "No markets found with the specified criteria.").
  { destruct Hdata as [->|[->| ->]]; reflexivity. }
  split; [exact Hlist|].
  unfold executeTool, runTool. simpl. rewrite Hparams. simpl.
  rewrite Hcall. simpl. rewrite Hlist. reflexivity.
Qed.

(** ** [get-market-info] *)

(** Without outcomes the whole line reads ["N/A"]. *)
Lemma outcomePrices_without_outcomes (data outcomes : value) :
  GetV E data "outcomes" = Ok outcomes ->
  ToBoolean outcomes = false ->
  outcomePrices E data = Ok "N/A".
Proof.
  intros Hget Hfalsy. unfold outcomePrices. rewrite Hget. simpl.
  now rewrite Hfalsy.
Qed.

(** With a price mapping at hand, a name it does not hold is priced
    ["N/A"]. *)
Lemma outcomePrices_missing_price (data : value) (props : list (string * value))
      (name : string) :
  GetV E data "outcomes" = Ok (VArr [VStr name]) ->
  GetV E data "outcomeprices" = Ok (VObj props) ->
  assoc name props = None ->
  inherited E (VObj props) name = false ->
  outcomePrices E data = Ok (name ++ ": $N/A").
Proof.
  intros Houtcomes Hprices Hassoc Hinh. unfold outcomePrices.
  rewrite Houtcomes. simpl. rewrite Hprices. simpl.
  unfold interpolate, or_else. simpl. rewrite Hassoc.
  unfold inheritedOr. rewrite Hinh. reflexivity.
Qed.

(** ** [get-market-prices] *)

(** A [forEach] whose callback appends one text per element appends them
    all, in order. *)
Lemma forEach_appends {A B : Type} (R : A -> B -> Prop) (text : B -> string)
      (f : A -> nat -> string -> completion string) :
  (forall x y i acc, R x y -> f x i acc = Ok (acc ++ text y)) ->
  forall xs ys,
    Forall2 R xs ys ->
    forall i acc,
      forEach f i xs acc = Ok (acc ++ fold_right String.append "" (map text ys)).
Proof.
  intros Hf xs ys Hall.
  induction Hall as [|x y xs ys Hxy _ IH]; intros i acc; cbn [forEach map fold_right].
  - now rewrite append_nil_r.
  - rewrite (Hf x y i acc Hxy). cbn [bind]. rewrite IH.
    now rewrite append_assoc.
Qed.


(** ** The event stream *)

Lemma start_stream (s : signal) :
  start E s =
    Ok (mkSse [establishedFrame] true false
              match s with
              | Signal aborted => negb aborted
              | NoSignal => false
              end).
Proof. destruct s as [|[]]; reflexivity. Qed.






Lemma fire_stopped (st : sse) (ev : event) :
  stopped st -> stopped (fire E st ev) /\ frames (fire E st ev) = frames st.
Proof.
  intros [Hk Hc]. destruct ev; simpl.
  - rewrite Hk. repeat split; assumption.
  - destruct (abortListener st); [|repeat split; assumption].
    unfold onAbort, close, stopped. simpl. rewrite Hc. simpl. auto.
  - unfold stopped. simpl. auto.
Qed.

Lemma run_stopped (evs : list event) :
  forall st, stopped st -> stopped (run E st evs) /\ frames (run E st evs) = frames st.
Proof.
  induction evs as [|ev evs IH]; intros st Hst; [split; [exact Hst|reflexivity]|].
  change (run E st (ev :: evs)) with (run E (fire E st ev) evs).
  destruct (fire_stopped st ev Hst) as [Hst' Hframes].
  destruct (IH _ Hst') as [Hst'' Hframes'].
  split; [exact Hst''|]. now rewrite Hframes', Hframes.
Qed.

(** ** The id in the text sent *)

Lemma JSON_stringify_object (props : list (string * value)) :
  JSON_stringify E (VObj props)
  = Some ("{" ++ String.concat "," (memberTexts E props) ++ "}").
Proof.
  assert (Hm : forall l,
             (fix members (l : list (string * value)) : list string :=
                match l with
                | [] => []
                | (k, x) :: rest =>
                    match JSON_stringify E x with
                    | Some t => (QuoteJSONString k ++ ":" ++ t) :: members rest
                    | None => members rest
                    end
                end) l = memberTexts E l).
  { induction l as [|[k x] rest IH]; [reflexivity|].
    cbn [memberTexts]. rewrite <- IH. reflexivity. }
  cbn [JSON_stringify]. rewrite Hm. reflexivity.
Qed.

(** The object the [switch] completes with has three properties: the
    version tag, the [id] read from the request, and a [result] or an
    [error] that is an object. *)
Lemma handleMessage_shape (req : request) (response : value) :
  handleMessage E fetch req = Ok response ->
  exists message id key payload,
    req_json req = Ok message /\
    GetV E message "id" = Ok id /\
    (key = "result" \/ key = "error") /\
    response = VObj [("jsonrpc", VStr "2.0"); ("id", id); (key, VObj payload)].
Proof.
  unfold handleMessage. intros H.
  destruct (req_json req) as [message|] eqn:Hjson; cbn [bind] in H; [|discriminate H].
  destruct (GetV E message "id") as [id|] eqn:Hid; cbn [bind] in H; [|discriminate H].
  destruct (GetV E message "method") as [method|] eqn:Hmethod; cbn [bind] in H;
    [|discriminate H].
  exists message, id.
  enough (exists key payload,
             (key = "result" \/ key = "error") /\
             response = VObj [("jsonrpc", VStr "2.0"); ("id", id); (key, VObj payload)])
    as (key & payload & Hkey & Hresp) by (exists key, payload; auto).
  assert (Hdefault : forall r,
             methodNotFound E method [("jsonrpc", VStr "2.0"); ("id", id)] = Ok r ->
             exists key payload,
               (key = "result" \/ key = "error") /\
               r = VObj [("jsonrpc", VStr "2.0"); ("id", id); (key, VObj payload)]).
  { unfold methodNotFound. intros r Hr.
    destruct (ToString E method); cbn [bind] in Hr; inversion Hr.
    eexists "error", _. split; [now right | reflexivity]. }
  assert (Hcall : forall r,
             toolsCall E fetch message [("jsonrpc", VStr "2.0"); ("id", id)] = Ok r ->
             exists key payload,
               (key = "result" \/ key = "error") /\
               r = VObj [("jsonrpc", VStr "2.0"); ("id", id); (key, VObj payload)]).
  { unfold toolsCall. intros r Hr.
    repeat match type of Hr with
           | bind ?c _ = Ok _ => destruct c; cbn [bind] in Hr; [|discriminate Hr]
           end.
    inversion Hr. eexists "result", _. split; [now left | reflexivity]. }
  destruct method; try (now apply Hdefault).
  destruct (s =? "initialize");
    [inversion H; eexists "result", _; split; [now left | reflexivity]|].
  destruct (s =? "tools/list");
    [inversion H; eexists "result", _; split; [now left | reflexivity]|].
  destruct (s =? "tools/call"); [now apply Hcall|].
  destruct (s =? "prompts/list");
    [inversion H; eexists "result", _; split; [now left | reflexivity]|].
  now apply Hdefault.
Qed.

(** C1, as the code has it.  A POST to a path ending in [/messages] is
    always answered with a JSON text.  With HTTP 200 the text is an object
    of three members: [jsonrpc], then [id] holding the text
    [JSON.stringify] writes for the [id] of the request, then [result] or
    [error]; there is no [id] member when the request has none.  That text
    is the string again for a string, the number again for a finite number,
    and [null] for a number that is not finite.  The HTTP 500 envelope,
    sent when parsing or dispatch throws, has the members [jsonrpc] and
    [error] only. *)
Theorem C1_id_in_sent_text (req : request) :
  req_method req = "POST" ->
  endsWith (req_pathname req) "/messages" = true ->
  (exists resp text,
     handler E fetch req = Ok resp /\
     sentText E (response_body resp) = Some text /\
     ((status resp = 200 /\
       exists message id key payload payloadText,
         req_json req = Ok message /\
         GetV E message "id" = Ok id /\
         (key = "result" \/ key = "error") /\
         JSON_stringify E (VObj payload) = Some payloadText /\
         text =
           "{" ++ String.concat ","
                   (((inQuotes "jsonrpc" ++ ":" ++ inQuotes "2.0")%string
                       :: idMember E id)
                      ++ [(inQuotes key ++ ":" ++ payloadText)%string])%list
               ++ "}")
      \/
      (status resp = 500 /\
       exists error,
         handleMessage E fetch req = Throw error /\
         text =
           "{" ++ String.concat ","
                   [inQuotes "jsonrpc" ++ ":" ++ inQuotes "2.0";
                    inQuotes "error" ++ ":"
                      ++ "{" ++ String.concat ","
                                 [inQuotes "code" ++ ":" ++ "-32603";
                                  inQuotes "message" ++ ":" ++ inQuotes "Internal error";
                                  inQuotes "data" ++ ":"
                                    ++ QuoteJSONString (exn_toString error)]
                      ++ "}"]
               ++ "}"))) /\
  (forall s, idMember E (VStr s) = [inQuotes "id" ++ ":" ++ QuoteJSONString s]) /\
  (forall x,
      idMember E (VNum x) =
        [inQuotes "id" ++ ":" ++ (if finite x then Number_toString E x else "null")]) /\
  idMember E VNull = [inQuotes "id" ++ ":" ++ "null"] /\
  idMember E VUndefined = [].
Proof.
  intros Hpost Hpath.
  split; [|repeat split; reflexivity].
  rewrite (handler_messages req Hpost Hpath).
  destruct (handleMessage E fetch req) as [response|error] eqn:Hrun.
  - destruct (handleMessage_shape req response Hrun)
      as (message & id & key & payload & Hm & Hid & Hkey & ->).
    destruct (JSON_stringify E (VObj payload)) as [payloadText|] eqn:Hpayload;
      [|rewrite JSON_stringify_object in Hpayload; discriminate Hpayload].
    eexists. eexists. split; [reflexivity|]. split.
    + cbn [sentText response_body]. rewrite JSON_stringify_object. reflexivity.
    + left. split; [reflexivity|].
      exists message, id, key, payload, payloadText.
      repeat (split; [assumption|]).
      do 2 f_equal. cbn [memberTexts]. rewrite Hpayload.
      unfold idMember.
      destruct Hkey as [-> | ->]; destruct (JSON_stringify E id); reflexivity.
  - eexists. eexists. split; [reflexivity|]. split; [reflexivity|].
    right. split; [reflexivity|]. exists error. split; reflexivity.
Qed.

(** ** Tool failures and unknown names *)

(** What the handler answers to a [tools/call] whose tool name converts
    to a string: the text of [executeTool] in one text block. *)
Lemma handler_tools_call_any (req : request) (message callRequest name : value)
      (shown : string) :
  req_method req = "POST" ->
  endsWith (req_pathname req) "/messages" = true ->
  req_json req = Ok message ->
  GetV E message "method" = Ok (VStr "tools/call") ->
  GetV E message "params" = Ok callRequest ->
  GetV E callRequest "name" = Ok name ->
  ToString E name = Ok shown ->
  exists id args text,
    GetV E message "id" = Ok id /\
    or_else (GetV E callRequest "arguments") (Ok (VObj [])) = Ok args /\
    executeTool E fetch name args = Ok text /\
    handler E fetch req =
      Ok (mkResponse 200 jsonHeaders
            (BodyJSON
               (VObj [("jsonrpc", VStr "2.0"); ("id", id);
                      ("result",
                        VObj [("content",
                                VArr [VObj [("type", VStr "text");
                                            ("text", VStr text)]])])]))).
Proof.
  intros Hpost Hpath Hjson Hmethod Hparams Hname Hshown.
  destruct (GetV_ok message "id" (GetV_ok_inv _ _ _ Hmethod)) as [id Hid].
  destruct (GetV_ok callRequest "arguments" (GetV_ok_inv _ _ _ Hname)) as [a Ha].
  set (args := if ToBoolean a then a else VObj []).
  destruct (executeTool_resolves name args) as [text Htext].
  assert (Hargs : or_else (GetV E callRequest "arguments") (Ok (VObj [])) = Ok args).
  { unfold or_else. rewrite Ha. cbn [bind]. subst args.
    destruct (ToBoolean a); reflexivity. }
  exists id, args, text. repeat (split; [assumption|]).
  rewrite (handler_messages req Hpost Hpath).
  unfold handleMessage. rewrite Hjson. cbn [bind]. rewrite Hid. cbn [bind].
  rewrite Hmethod. cbn [bind String.eqb Ascii.eqb Bool.eqb].
  unfold toolsCall, interpolate.
  rewrite Hparams. cbn [bind]. rewrite Hname. cbn [bind]. rewrite Hshown.
  cbn [bind]. rewrite Hargs, Ha. cbn [bind].
  rewrite Htext. reflexivity.
Qed.

(** A non-2xx answer makes the client throw the status and the body. *)
Lemma callPolymarketAPI_status (endpoint : string)
      (params : option (list (string * value))) (query : list (string * string))
      (f : fetched) (errorText : string) :
  match params with Some ps => appendParams E ps [] | None => Ok [] end = Ok query ->
  fetch (mkUrl (baseUrl ++ endpoint) query) = Ok f ->
  fetched_ok f = false ->
  fetched_text f = Ok errorText ->
  callPolymarketAPI E fetch endpoint params =
    Throw (Error ("Polymarket API error: " ++ decimal (N.of_nat (fetched_status f))
                    ++ " - " ++ errorText)).
Proof.
  intros Hquery Hfetch Hok Htext. unfold callPolymarketAPI.
  rewrite Hquery. cbn [bind]. rewrite Hfetch. cbn [bind]. rewrite Hok.
  cbn [negb]. rewrite Htext. reflexivity.
Qed.

(** C2.  [executeTool] resolves to a text for every tool name and every
    arguments value, and whatever its [switch] throws becomes the text
    ["Error: "] followed by the message of the failure.  A non-2xx upstream
    answer is thrown with a message made of the status and the body text.
    So a [tools/call] for one of the three tools, with the upstream
    answering non-2xx, gets HTTP 200 and a [result] whose [content[0].text]
    is ["Error: "] followed by the message thrown, which is the status
    message whenever the arguments let the tool reach the network; the
    answer has no [error] member. *)
Theorem C2_failures_become_text :
  (forall name args,
      exists text,
        executeTool E fetch name args = Ok text /\
        forall error, runTool E fetch name args = Throw error ->
                      text = "Error: " ++ exn_message error) /\
  (forall endpoint params query f errorText,
      match params with Some ps => appendParams E ps [] | None => Ok [] end = Ok query ->
      (forall u, fetch u = Ok f) ->
      fetched_ok f = false ->
      fetched_text f = Ok errorText ->
      callPolymarketAPI E fetch endpoint params =
        Throw (Error ("Polymarket API error: " ++ decimal (N.of_nat (fetched_status f))
                        ++ " - " ++ errorText))) /\
  (forall req message callRequest tool f,
      req_method req = "POST" ->
      endsWith (req_pathname req) "/messages" = true ->
      req_json req = Ok message ->
      GetV E message "method" = Ok (VStr "tools/call") ->
      GetV E message "params" = Ok callRequest ->
      GetV E callRequest "name" = Ok (VStr tool) ->
      In tool toolNames ->
      (forall u, fetch u = Ok f) ->
      fetched_ok f = false ->
      exists id args error,
        GetV E message "id" = Ok id /\
        or_else (GetV E callRequest "arguments") (Ok (VObj [])) = Ok args /\
        runTool E fetch (VStr tool) args = Throw error /\
        handler E fetch req =
          Ok (mkResponse 200 jsonHeaders
                (BodyJSON
                   (VObj [("jsonrpc", VStr "2.0"); ("id", id);
                          ("result",
                            VObj [("content",
                                    VArr [VObj [("type", VStr "text");
                                                ("text",
                                                  VStr ("Error: "
                                                          ++ exn_message error))]])])]))) /\
        forall errorText,
          fetched_text f = Ok errorText ->
          (tool <> "list-markets" ->
           forall market, interpolate E (GetV E args "market_id") = Ok market ->
             exn_message error =
               "Polymarket API error: " ++ decimal (N.of_nat (fetched_status f))
                 ++ " - " ++ errorText) /\
          (tool = "list-markets" ->
           forall params query,
             listMarketsParams E args = Ok params ->
             appendParams E params [] = Ok query ->
             exn_message error =
               "Polymarket API error: " ++ decimal (N.of_nat (fetched_status f))
                 ++ " - " ++ errorText)).
Proof.
  split; [|split].
  - intros name args.
    destruct (runTool E fetch name args) as [text|e] eqn:Hrun.
    + exists text. split; [|discriminate].
      unfold executeTool. rewrite Hrun. reflexivity.
    + exists ("Error: " ++ exn_message e). split.
      * now apply executeTool_catches.
      * intros error Herr. inversion Herr. reflexivity.
  - intros endpoint params query f errorText Hquery Hfetch.
    now apply (callPolymarketAPI_status endpoint params query).
  - intros req message callRequest tool f Hpost Hpath Hjson Hmethod Hparams Hname
           Hin Hfetch Hok.
    destruct (handler_tools_call_any req message callRequest (VStr tool) tool
                Hpost Hpath Hjson Hmethod Hparams Hname eq_refl)
      as (id & args & text & Hid & Hargs & Hexec & Hresp).
    destruct (runTool_upstream_fails f tool args Hfetch Hok Hin) as [error Herror].
    rewrite (executeTool_catches _ _ _ Herror) in Hexec. injection Hexec as <-.
    exists id, args, error. repeat (split; [assumption|]).
    intros errorText Htext. split.
    + intros Hnot market Hmarket.
      assert (Hcall : callPolymarketAPI E fetch ("/markets/" ++ market) None
                      = Throw (Error ("Polymarket API error: "
                                        ++ decimal (N.of_nat (fetched_status f))
                                        ++ " - " ++ errorText)))
        by (apply (callPolymarketAPI_status _ None []); auto).
      simpl in Hin. destruct Hin as [<-|[<-|[<-|[]]]]; [|now elim Hnot|];
        unfold runTool in Herror; cbn [String.eqb Ascii.eqb Bool.eqb] in Herror;
        rewrite Hmarket in Herror; cbn [bind] in Herror;
        rewrite Hcall in Herror; injection Herror as <-; reflexivity.
    + intros -> params query Hps Hquery.
      assert (Hcall : callPolymarketAPI E fetch "/markets" (Some params)
                      = Throw (Error ("Polymarket API error: "
                                        ++ decimal (N.of_nat (fetched_status f))
                                        ++ " - " ++ errorText)))
        by (apply (callPolymarketAPI_status _ (Some params) query); auto).
      unfold runTool in Herror. cbn [String.eqb Ascii.eqb Bool.eqb] in Herror.
      rewrite Hps in Herror. cbn [bind] in Herror.
      rewrite Hcall in Herror. injection Herror as <-. reflexivity.
Qed.

(** C5, as the code has it.  For a POST to [/messages] whose [method] is
    any value other than the four method names: when the method converts to
    a string (every string, number, boolean, [null], a missing method) the
    answer is HTTP 200 with the request's [id] and an [error] of code -32601
    whose message is ["Method not found: "] followed by that string, and no
    [result]; when the conversion throws (an object with a [toString] member
    of its own) the answer is the HTTP 500 envelope of code -32603. *)
Theorem C5_method_outside_the_set (req : request) (message method : value) :
  req_method req = "POST" ->
  endsWith (req_pathname req) "/messages" = true ->
  req_json req = Ok message ->
  GetV E message "method" = Ok method ->
  (forall m, In m rpcMethods -> method <> VStr m) ->
  exists id,
    GetV E message "id" = Ok id /\
    (forall shown,
        ToString E method = Ok shown ->
        exists resp,
          handler E fetch req = Ok resp /\
          status resp = 200 /\
          response_body resp =
            BodyJSON (VObj [("jsonrpc", VStr "2.0"); ("id", id);
                            ("error",
                              VObj [("code", VNum (-32601));
                                    ("message",
                                      VStr ("Method not found: " ++ shown))])]) /\
          bodyField (response_body resp) "result" = VUndefined) /\
    (forall m, method = VStr m -> ToString E method = Ok m) /\
    (forall error,
        ToString E method = Throw error ->
        handler E fetch req =
          Ok (mkResponse 500 jsonHeaders
                (BodyJSON (VObj [("jsonrpc", VStr "2.0");
                                 ("error",
                                   VObj [("code", VNum (-32603));
                                         ("message", VStr "Internal error");
                                         ("data", VStr (exn_toString error))])])))).
Proof.
  intros Hpost Hpath Hjson Hmethod Hnot.
  destruct (GetV_ok message "id" (GetV_ok_inv _ _ _ Hmethod)) as [id Hid].
  exists id. split; [exact Hid|].
  assert (Hrun : handleMessage E fetch req =
                 methodNotFound E method [("jsonrpc", VStr "2.0"); ("id", id)]).
  { unfold handleMessage. rewrite Hjson. cbn [bind]. rewrite Hid. cbn [bind].
    rewrite Hmethod. cbn [bind].
    destruct method as [| | | |m| | |]; try reflexivity.
    assert (Hm : forall t, In t rpcMethods -> (m =? t) = false).
    { intros t Ht. apply String.eqb_neq. intros ->. now apply (Hnot t Ht). }
    rewrite !Hm by (simpl; auto 6). reflexivity. }
  rewrite (handler_messages req Hpost Hpath), Hrun. unfold methodNotFound.
  split; [|split].
  - intros shown Hshown. rewrite Hshown. eexists. split; [reflexivity|].
    repeat split.
  - intros m ->. reflexivity.
  - intros error Herror. rewrite Herror. reflexivity.
Qed.

(** C10, as the code has it.  For a tool name that is none of the three
    tools: when the name converts to a string, [executeTool] resolves to
    ["Error: Unknown tool: "] followed by that string, and a [tools/call]
    naming it is answered with HTTP 200 and a [result] whose one text block
    holds that text; when the conversion throws, [executeTool] resolves to
    ["Error: "] and the message of the failure, and a [tools/call] is
    answered with the HTTP 500 envelope of code -32603, since the log line
    converts the name before the tool runs. *)
Theorem C10_name_outside_the_tools (name args : value) :
  (forall tool, In tool toolNames -> name <> VStr tool) ->
  (forall shown,
      ToString E name = Ok shown ->
      executeTool E fetch name args = Ok ("Error: Unknown tool: " ++ shown) /\
      forall req message callRequest,
        req_method req = "POST" ->
        endsWith (req_pathname req) "/messages" = true ->
        req_json req = Ok message ->
        GetV E message "method" = Ok (VStr "tools/call") ->
        GetV E message "params" = Ok callRequest ->
        GetV E callRequest "name" = Ok name ->
        exists id,
          GetV E message "id" = Ok id /\
          handler E fetch req =
            Ok (mkResponse 200 jsonHeaders
                  (BodyJSON
                     (VObj [("jsonrpc", VStr "2.0"); ("id", id);
                            ("result",
                              VObj [("content",
                                      VArr [VObj [("type", VStr "text");
                                                  ("text",
                                                    VStr ("Error: Unknown tool: "
                                                            ++ shown))]])])])))) /\
  (forall m, name = VStr m -> ToString E name = Ok m) /\
  (forall error,
      ToString E name = Throw error ->
      executeTool E fetch name args = Ok ("Error: " ++ exn_message error) /\
      forall req message callRequest,
        req_method req = "POST" ->
        endsWith (req_pathname req) "/messages" = true ->
        req_json req = Ok message ->
        GetV E message "method" = Ok (VStr "tools/call") ->
        GetV E message "params" = Ok callRequest ->
        GetV E callRequest "name" = Ok name ->
        handler E fetch req =
          Ok (mkResponse 500 jsonHeaders
                (BodyJSON (VObj [("jsonrpc", VStr "2.0");
                                 ("error",
                                   VObj [("code", VNum (-32603));
                                         ("message", VStr "Internal error");
                                         ("data", VStr (exn_toString error))])])))).
Proof.
  intros Hnot.
  assert (Hdefault : forall a, runTool E fetch name a = unknownTool E name).
  { intros a. unfold runTool. destruct name as [| | | |m| | |]; try reflexivity.
    assert (Hm : forall t, In t toolNames -> (m =? t) = false).
    { intros t Ht. apply String.eqb_neq. intros ->. now apply (Hnot t Ht). }
    rewrite !Hm by (simpl; auto). reflexivity. }
  split; [|split].
  - intros shown Hshown.
    assert (Hany : forall a, executeTool E fetch name a
                             = Ok ("Error: Unknown tool: " ++ shown)).
    { intros a.
      rewrite (executeTool_catches name a (Error ("Unknown tool: " ++ shown)));
        [reflexivity|].
      rewrite Hdefault. unfold unknownTool. rewrite Hshown. reflexivity. }
    split; [apply Hany|].
    intros req message callRequest Hpost Hpath Hjson Hmethod Hparams Hname.
    destruct (handler_tools_call_any req message callRequest name shown
                Hpost Hpath Hjson Hmethod Hparams Hname Hshown)
      as (id & a & text & Hid & _ & Hexec & Hresp).
    rewrite Hany in Hexec. injection Hexec as <-.
    exists id. split; assumption.
  - intros m ->. reflexivity.
  - intros error Herror. split.
    + apply (executeTool_catches name args error).
      rewrite Hdefault. unfold unknownTool. rewrite Herror. reflexivity.
    + intros req message callRequest Hpost Hpath Hjson Hmethod Hparams Hname.
      destruct (GetV_ok message "id" (GetV_ok_inv _ _ _ Hmethod)) as [id Hid].
      rewrite (handler_messages req Hpost Hpath).
      unfold handleMessage. rewrite Hjson. cbn [bind]. rewrite Hid. cbn [bind].
      rewrite Hmethod. cbn [bind String.eqb Ascii.eqb Bool.eqb].
      unfold toolsCall, interpolate.
      rewrite Hparams. cbn [bind]. rewrite Hname. cbn [bind]. rewrite Herror.
      reflexivity.
Qed.

(** ** The query of [list-markets] *)




(** ** The price lines through the tool *)



(** ** The stream and the signal *)



(** * Beyond the claims *)

(** ** Routing *)

(** Every request is answered: with HTTP 200, or with HTTP 500 from the
    [/messages] branch only, and always with the three CORS headers first. *)
Theorem handler_always_answers (req : request) :
  exists resp,
    handler E fetch req = Ok resp /\
    (status resp = 200 \/
     status resp = 500 /\
     req_method req = "POST" /\ endsWith (req_pathname req) "/messages" = true) /\
    exists more, headers resp = (corsHeaders ++ more)%list.
Proof.
  unfold handler.
  destruct (req_method req =? "OPTIONS") eqn:Hopt.
  { eexists. split; [reflexivity|]. split; [left; reflexivity|].
    exists []. now rewrite app_nil_r. }
  destruct (endsWith (req_pathname req) "/sse") eqn:Hsse.
  { rewrite start_stream. cbn [bind].
    eexists. split; [reflexivity|]. split; [left; reflexivity|].
    eexists. reflexivity. }
  destruct (endsWith (req_pathname req) "/messages") eqn:Hmsg; cbn [andb].
  - destruct (req_method req =? "POST") eqn:Hpost.
    + apply String.eqb_eq in Hpost. unfold try_catch.
      destruct (handleMessage E fetch req); cbn [bind].
      * eexists. split; [reflexivity|]. split; [left; reflexivity|].
        eexists. reflexivity.
      * eexists. split; [reflexivity|]. split; [right; auto|].
        eexists. reflexivity.
    + eexists. split; [reflexivity|]. split; [left; reflexivity|].
      exists []. now rewrite app_nil_r.
  - eexists. split; [reflexivity|]. split; [left; reflexivity|].
    exists []. now rewrite app_nil_r.
Qed.


(** When the body of a POST to [/messages] does not parse, the answer is
    HTTP 500 with the envelope of code -32603 whose [data] is the parse error
    as a string; the network is not called. *)
Theorem malformed_body (req : request) (error : exn) :
  req_method req = "POST" ->
  endsWith (req_pathname req) "/messages" = true ->
  req_json req = Throw error ->
  forall fetch',
    handler E fetch' req =
      Ok (mkResponse 500 jsonHeaders
            (BodyJSON (VObj [("jsonrpc", VStr "2.0");
                             ("error",
                               VObj [("code", VNum (-32603));
                                     ("message", VStr "Internal error");
                                     ("data", VStr (exn_toString error))])]))).
Proof.
  intros Hpost Hpath Hjson fetch'. unfold handler.
  rewrite Hpost, (messages_not_sse _ Hpath), Hpath. cbn [andb String.eqb].
  unfold handleMessage. rewrite Hjson. reflexivity.
Qed.

(** A body that parses to something other than an object: [null] makes the
    read of [message.id] throw, so the answer is the HTTP 500 envelope; a
    boolean, a number, a string or an array has neither [id] nor [method],
    so the answer is HTTP 200 with ["Method not found: undefined"] and no
    [id]. *)
Theorem body_not_an_object (req : request) (message : value) :
  req_method req = "POST" ->
  endsWith (req_pathname req) "/messages" = true ->
  req_json req = Ok message ->
  match message with
  | VNull | VBool _ | VNum _ | VStr _ | VArr _ => True
  | _ => False
  end ->
  exists resp,
    handler E fetch req = Ok resp /\
    bodyField (response_body resp) "id" = VUndefined /\
    bodyField (response_body resp) "result" = VUndefined /\
    (message = VNull ->
     status resp = 500 /\
     response_body resp =
       BodyJSON (internalError (mkExn "TypeError"
                                  (faultMessage E (ReadOfNullish VNull "id"))))) /\
    (message <> VNull ->
     status resp = 200 /\
     bodyField (response_body resp) "error" =
       VObj [("code", VNum (-32601));
             ("message", VStr "Method not found: undefined")]).
Proof.
  intros Hpost Hpath Hjson Hshape.
  rewrite (handler_messages req Hpost Hpath).
  unfold handleMessage. rewrite Hjson. cbn [bind].
  destruct message; try contradiction;
    (eexists; split; [reflexivity|];
     split; [reflexivity|]; split; [reflexivity|]; split;
     [intros Hnull; first [discriminate Hnull | split; reflexivity]
     |intros Hother; first [now elim Hother | split; reflexivity]]).
Qed.

(** The [switch] compares with [===], so a [method] that is not a string
    never matches an arm: when it converts to a string the answer is HTTP
    200 with ["Method not found: "] and that string (["undefined"] when the
    member is missing); when the conversion throws, the HTTP 500 envelope. *)
Theorem method_not_a_string (req : request) (message method : value) :
  req_method req = "POST" ->
  endsWith (req_pathname req) "/messages" = true ->
  req_json req = Ok message ->
  GetV E message "method" = Ok method ->
  (forall m, method <> VStr m) ->
  exists id,
    GetV E message "id" = Ok id /\
    (forall shown,
        ToString E method = Ok shown ->
        handler E fetch req =
          Ok (mkResponse 200 jsonHeaders
                (BodyJSON (VObj [("jsonrpc", VStr "2.0"); ("id", id);
                                 ("error",
                                   VObj [("code", VNum (-32601));
                                         ("message",
                                           VStr ("Method not found: " ++ shown))])])))) /\
    (forall error,
        ToString E method = Throw error ->
        handler E fetch req =
          Ok (mkResponse 500 jsonHeaders (BodyJSON (internalError error)))).
Proof.
  intros Hpost Hpath Hjson Hmethod Hnot.
  destruct (GetV_ok message "id" (GetV_ok_inv _ _ _ Hmethod)) as [id Hid].
  exists id. split; [exact Hid|].
  assert (Hrun : handleMessage E fetch req =
                 methodNotFound E method [("jsonrpc", VStr "2.0"); ("id", id)]).
  { unfold handleMessage. rewrite Hjson. cbn [bind]. rewrite Hid. cbn [bind].
    rewrite Hmethod. cbn [bind].
    destruct method; try reflexivity. now elim (Hnot s). }
  rewrite (handler_messages req Hpost Hpath), Hrun. unfold methodNotFound.
  split.
  - intros shown Hshown. rewrite Hshown. reflexivity.
  - intros error Herror. rewrite Herror. reflexivity.
Qed.

(** [initialize], [tools/list] and [prompts/list] are answered from
    constants: HTTP 200, the request's [id], a fixed [result], whatever the
    [params] and without a call to the network. *)
Theorem static_methods (req : request) (message : value) (method : string) :
  req_method req = "POST" ->
  endsWith (req_pathname req) "/messages" = true ->
  req_json req = Ok message ->
  GetV E message "method" = Ok (VStr method) ->
  In method ["initialize"; "tools/list"; "prompts/list"] ->
  exists id result,
    GetV E message "id" = Ok id /\
    (forall fetch',
        handler E fetch' req =
          Ok (mkResponse 200 jsonHeaders
                (BodyJSON (VObj [("jsonrpc", VStr "2.0"); ("id", id);
                                 ("result", result)])))) /\
    (method = "initialize" -> result = initializeResult) /\
    (method = "tools/list" -> result = VObj [("tools", tools)]) /\
    (method = "prompts/list" -> result = VObj [("prompts", VArr [])]).
Proof.
  intros Hpost Hpath Hjson Hmethod Hin.
  destruct (GetV_ok message "id" (GetV_ok_inv _ _ _ Hmethod)) as [id Hid].
  assert (Hroute : forall fetch',
             handler E fetch' req =
               match handleMessage E fetch' req with
               | Ok response => Ok (mkResponse 200 jsonHeaders (BodyJSON response))
               | Throw error =>
                   Ok (mkResponse 500 jsonHeaders (BodyJSON (internalError error)))
               end).
  { intros fetch'. unfold handler.
    rewrite Hpost, (messages_not_sse _ Hpath), Hpath. cbn [andb String.eqb].
    unfold try_catch. destruct (handleMessage E fetch' req); reflexivity. }
  exists id.
  simpl in Hin. destruct Hin as [<-|[<-|[<-|[]]]]; eexists;
    (split; [exact Hid|]);
    (split; [intros fetch'; rewrite Hroute; unfold handleMessage;
             rewrite Hjson; cbn [bind]; rewrite Hid; cbn [bind];
             rewrite Hmethod; reflexivity|]);
    repeat split; try reflexivity; discriminate.
Qed.

(** ** [tools/call] *)

(** A [tools/call] whose [params] exist and whose tool name converts to a
    string is answered with HTTP 200 and a [result] made of one text block,
    never with an [error].  A name that is not a string matches no arm of
    the [switch] of [executeTool]: the text is then ["Error: Unknown tool: "]
    and the name as converted (["undefined"] when there is none). *)
Theorem tools_call_wraps_text (req : request) (message callRequest name : value)
        (shown : string) :
  req_method req = "POST" ->
  endsWith (req_pathname req) "/messages" = true ->
  req_json req = Ok message ->
  GetV E message "method" = Ok (VStr "tools/call") ->
  GetV E message "params" = Ok callRequest ->
  GetV E callRequest "name" = Ok name ->
  ToString E name = Ok shown ->
  exists id text resp,
    GetV E message "id" = Ok id /\
    handler E fetch req = Ok resp /\
    status resp = 200 /\
    response_body resp =
      BodyJSON
        (VObj [("jsonrpc", VStr "2.0"); ("id", id);
               ("result",
                 VObj [("content",
                         VArr [VObj [("type", VStr "text"); ("text", VStr text)]])])]) /\
    bodyField (response_body resp) "error" = VUndefined /\
    ((forall tool, name <> VStr tool) -> text = "Error: Unknown tool: " ++ shown).
Proof.
  intros Hpost Hpath Hjson Hmethod Hparams Hname Hshown.
  destruct (GetV_ok message "id" (GetV_ok_inv _ _ _ Hmethod)) as [id Hid].
  destruct (GetV_ok callRequest "arguments" (GetV_ok_inv _ _ _ Hname)) as [a Ha].
  set (args := if ToBoolean a then a else VObj []).
  destruct (executeTool_resolves name args) as [text Htext].
  exists id, text. eexists. split; [exact Hid|]. split.
  - rewrite (handler_messages req Hpost Hpath).
    unfold handleMessage. rewrite Hjson. cbn [bind]. rewrite Hid. cbn [bind].
    rewrite Hmethod. cbn [bind String.eqb Ascii.eqb Bool.eqb].
    unfold toolsCall, interpolate, or_else.
    rewrite Hparams. cbn [bind]. rewrite Hname. cbn [bind]. rewrite Hshown.
    cbn [bind]. rewrite Ha. cbn [bind].
    replace (if ToBoolean a then Ok a else Ok (VObj [])) with (Ok args)
      by (subst args; destruct (ToBoolean a); reflexivity).
    cbn [bind]. rewrite Htext. reflexivity.
  - split; [reflexivity|]. split; [reflexivity|]. split; [reflexivity|].
    intros Hnot.
    assert (Hrun : runTool E fetch name args
                   = Throw (Error ("Unknown tool: " ++ shown))).
    { unfold runTool, unknownTool.
      destruct name; try (rewrite Hshown; reflexivity). now elim (Hnot s). }
    rewrite (executeTool_catches _ _ _ Hrun) in Htext.
    inversion Htext. reflexivity.
Qed.

(** When the tool name cannot be converted to a string, the log line of the
    [tools/call] arm throws before [executeTool] is called: the answer is the
    HTTP 500 envelope, on every network. *)
Theorem tool_name_not_convertible (req : request) (message callRequest name : value)
        (error : exn) :
  req_method req = "POST" ->
  endsWith (req_pathname req) "/messages" = true ->
  req_json req = Ok message ->
  GetV E message "method" = Ok (VStr "tools/call") ->
  GetV E message "params" = Ok callRequest ->
  GetV E callRequest "name" = Ok name ->
  ToString E name = Throw error ->
  forall fetch',
    handler E fetch' req =
      Ok (mkResponse 500 jsonHeaders (BodyJSON (internalError error))).
Proof.
  intros Hpost Hpath Hjson Hmethod Hparams Hname Hshown fetch'.
  destruct (GetV_ok message "id" (GetV_ok_inv _ _ _ Hmethod)) as [id Hid].
  unfold handler.
  rewrite Hpost, (messages_not_sse _ Hpath), Hpath. cbn [andb String.eqb].
  unfold handleMessage. rewrite Hjson. cbn [bind]. rewrite Hid. cbn [bind].
  rewrite Hmethod. cbn [bind String.eqb Ascii.eqb Bool.eqb].
  unfold toolsCall, interpolate.
  rewrite Hparams. cbn [bind]. rewrite Hname. cbn [bind]. rewrite Hshown.
  reflexivity.
Qed.

(** ** The market tools *)

(** Both market tools answer a falsy upstream payload ([null], [false], 0,
    the empty string) with the not-found text. *)
Theorem market_not_found (tool id : string) (args data : value) :
  In tool marketTools ->
  interpolate E (GetV E args "market_id") = Ok id ->
  callPolymarketAPI E fetch ("/markets/" ++ id) None = Ok data ->
  ToBoolean data = false ->
  executeTool E fetch (VStr tool) args =
    Ok "Market not found. Please check the market ID or slug.".
Proof.
  intros Hin Hid Hcall Hfalsy.
  simpl in Hin. destruct Hin as [<-|[<-|[]]];
    unfold executeTool, runTool; cbn [String.eqb Ascii.eqb Bool.eqb];
    rewrite Hid; cbn [bind]; rewrite Hcall; cbn [bind]; rewrite Hfalsy;
    reflexivity.
Qed.

(** When the network is down, so that every [fetch] rejects with the same
    error, both market tools resolve to ["Error: "] followed by the message
    of the rejection, and so does [list-markets] whenever its query can be
    built. *)
Theorem network_failure_is_text (tool : string) (args : value) (error : exn) :
  In tool toolNames ->
  (forall u, fetch u = Throw error) ->
  (tool <> "list-markets" ->
   exists market, interpolate E (GetV E args "market_id") = Ok market) ->
  (tool = "list-markets" ->
   exists params query,
     listMarketsParams E args = Ok params /\ appendParams E params [] = Ok query) ->
  executeTool E fetch (VStr tool) args = Ok ("Error: " ++ exn_message error).
Proof.
  intros Hin Hfetch Hmarket Hlist.
  apply executeTool_catches.
  simpl in Hin. destruct Hin as [<-|[<-|[<-|[]]]].
  - destruct Hmarket as [market Hid]; [discriminate|].
    unfold runTool; cbn [String.eqb Ascii.eqb Bool.eqb].
    rewrite Hid; cbn [bind]. unfold callPolymarketAPI. cbn [bind].
    rewrite Hfetch. reflexivity.
  - destruct (Hlist eq_refl) as (params & query & Hparams & Hquery).
    unfold runTool; cbn [String.eqb Ascii.eqb Bool.eqb].
    rewrite Hparams; cbn [bind]. unfold callPolymarketAPI.
    rewrite Hquery. cbn [bind]. rewrite Hfetch. reflexivity.
  - destruct Hmarket as [market Hid]; [discriminate|].
    unfold runTool; cbn [String.eqb Ascii.eqb Bool.eqb].
    rewrite Hid; cbn [bind]. unfold callPolymarketAPI. cbn [bind].
    rewrite Hfetch. reflexivity.
Qed.

(** The market tools read their arguments through the string form of
    [market_id] alone: two argument values with the same string form give
    the same answer, so a missing id behaves as the id ["undefined"]. *)
Theorem market_id_only (tool : string) (args args' : value) :
  In tool marketTools ->
  interpolate E (GetV E args "market_id") = interpolate E (GetV E args' "market_id") ->
  executeTool E fetch (VStr tool) args = executeTool E fetch (VStr tool) args'.
Proof.
  intros Hin Hsame.
  simpl in Hin. destruct Hin as [<-|[<-|[]]];
    unfold executeTool, runTool; cbn [String.eqb Ascii.eqb Bool.eqb];
    rewrite Hsame; reflexivity.
Qed.

(** ** The query of an upstream call *)

Lemma appendParams_spec (params : list (string * value)) :
  forall acc query,
    appendParams E params acc = Ok query ->
    exists sent,
      query = (acc ++ sent)%list /\
      Forall2 (fun p kv => fst kv = fst p /\ ToString E (snd p) = Ok (snd kv))
              (filter (fun p => negb (nullish (snd p))) params) sent.
Proof.
  induction params as [|[key v] rest IH]; intros acc query H; simpl in H.
  - inversion H. exists []. split; [now rewrite app_nil_r | constructor].
  - simpl. destruct (nullish v) eqn:Hnull; simpl.
    + now apply IH.
    + destruct (ToString E v) as [s|] eqn:Hs; simpl in H; [|discriminate H].
      destruct (IH _ _ H) as (sent & -> & Hall).
      exists ((key, s) :: sent). split.
      * now rewrite <- app_assoc.
      * constructor; [split; [reflexivity|exact Hs] | exact Hall].
Qed.

(** The query [callPolymarketAPI] builds holds one pair for each parameter
    that is neither [undefined] nor [null], in the order of the parameters,
    with the value converted to a string; the rest is skipped. *)
Theorem query_skips_nullish (params : list (string * value))
        (query : list (string * string)) :
  appendParams E params [] = Ok query ->
  Forall2 (fun p kv => fst kv = fst p /\ ToString E (snd p) = Ok (snd kv))
          (filter (fun p => negb (nullish (snd p))) params) query /\
  map fst query = map fst (filter (fun p => negb (nullish (snd p))) params).
Proof.
  intros H. destruct (appendParams_spec params [] query H) as (sent & -> & Hall).
  simpl. split; [exact Hall|].
  clear H. induction Hall as [|p kv ps kvs [Hk _] _ IH]; simpl; [reflexivity|].
  now rewrite Hk, IH.
Qed.

(** [list-markets] sends at most [closed], [limit] and [offset], in this
    order: no other member of the arguments reaches the query, and [limit]
    and [offset], when sent, are truthy. *)
Theorem list_markets_sends_three_keys (args : value)
        (params : list (string * value)) (query : list (string * string)) :
  listMarketsParams E args = Ok params ->
  appendParams E params [] = Ok query ->
  exists c l o : bool,
    map fst query =
      ((if c then ["closed"] else []) ++ (if l then ["limit"] else [])
         ++ (if o then ["offset"] else []))%list /\
    (forall key, ~ In key ["closed"; "limit"; "offset"] -> assoc key params = None) /\
    (forall limit, assoc "limit" params = Some limit -> ToBoolean limit = true) /\
    (forall offset, assoc "offset" params = Some offset -> ToBoolean offset = true).
Proof.
  intros Hparams Hquery.
  destruct (appendParams_spec params [] query Hquery) as (sent & -> & Hall).
  assert (Hkeys : map fst sent = map fst (filter (fun p => negb (nullish (snd p))) params)).
  { clear - Hall. induction Hall as [|p kv ps kvs [Hk _] _ IH]; simpl; [reflexivity|].
    now rewrite Hk, IH. }
  clear Hall Hquery.
  unfold listMarketsParams in Hparams.
  destruct (GetV E args "closed") as [closed|]; cbn [bind] in Hparams;
    [|discriminate Hparams].
  destruct (GetV E args "limit") as [limit|]; cbn [bind] in Hparams;
    [|discriminate Hparams].
  destruct (GetV E args "offset") as [offset|]; cbn [bind] in Hparams;
    [|discriminate Hparams].
  assert (Hshape : params =
            ((if notUndefined closed then [("closed", closed)] else [])
               ++ (if ToBoolean limit then [("limit", limit)] else [])
               ++ (if ToBoolean offset then [("offset", offset)] else []))%list).
  { injection Hparams as <-.
    destruct (notUndefined closed), (ToBoolean limit), (ToBoolean offset);
      reflexivity. }
  clear Hparams. subst params.
  assert (Htruthy : forall v, ToBoolean v = true -> nullish v = false).
  { intros v Hv. destruct v; try reflexivity; discriminate Hv. }
  exists (notUndefined closed && negb (nullish closed)), (ToBoolean limit),
         (ToBoolean offset).
  split; [|split; [|split]].
  - simpl. rewrite Hkeys.
    destruct (notUndefined closed) eqn:Hc, (ToBoolean limit) eqn:Hl,
             (ToBoolean offset) eqn:Ho;
      cbn [app filter snd fst map andb];
      rewrite ?(Htruthy _ Hl), ?(Htruthy _ Ho);
      destruct (nullish closed); reflexivity.
  - intros key Hnot.
    assert (Hc : ("closed" =? key) = false)
      by (apply String.eqb_neq; intros <-; apply Hnot; simpl; auto).
    assert (Hl : ("limit" =? key) = false)
      by (apply String.eqb_neq; intros <-; apply Hnot; simpl; auto).
    assert (Ho : ("offset" =? key) = false)
      by (apply String.eqb_neq; intros <-; apply Hnot; simpl; auto).
    destruct (notUndefined closed), (ToBoolean limit), (ToBoolean offset);
      cbn [app assoc]; rewrite ?Hc, ?Hl, ?Ho; reflexivity.
  - intros v.
    destruct (notUndefined closed), (ToBoolean limit) eqn:Hl, (ToBoolean offset);
      cbn; intros Hv; inversion Hv; subst; assumption.
  - intros v.
    destruct (notUndefined closed), (ToBoolean limit), (ToBoolean offset) eqn:Ho;
      cbn; intros Hv; inversion Hv; subst; assumption.
Qed.

(** ** [list-markets] output *)

(** [list-markets] renders a numbered list for a non-empty array only:
    any other payload gives the no-markets text or throws. *)
Theorem listing_needs_array (data : value) (text : string) :
  marketList E data = Ok text ->
  text = "No markets found with the specified criteria." \/
  exists market markets, data = VArr (market :: markets).
Proof.
  unfold marketList, interpolate. intros H.
  destruct data as [| |b|x|s|elems|props|k]; try (inversion H; now left).
  - destruct b; cbn in H; [discriminate H | inversion H; now left].
  - cbn [ToBoolean] in H.
    destruct (negb (negb (PrimFloat.is_zero x || PrimFloat.is_nan x)));
      cbn in H; [inversion H; now left | discriminate H].
  - cbn [ToBoolean] in H.
    destruct (negb (negb (s =? ""))); cbn in H; [inversion H; now left|].
    destruct (PrimFloat.eqb _ _); [inversion H; now left | discriminate H].
  - destruct elems as [|market markets]; [inversion H; now left|].
    right. eauto.
  - cbn [ToBoolean negb GetV bind] in H.
    destruct (strictEqZero _); [inversion H; now left|].
    destruct (ToString E _); cbn [bind] in H; discriminate H.
Qed.

(** ** [get-market-prices] without a price mapping *)

(** The test [data.outcomes && data.outcomeprices]. *)
Lemma prices_guard (data outcomes prices : value) :
  GetV E data "outcomes" = Ok outcomes ->
  GetV E data "outcomeprices" = Ok prices ->
  exists both,
    and_then (GetV E data "outcomes") (GetV E data "outcomeprices") = Ok both /\
    ToBoolean both = ToBoolean outcomes && ToBoolean prices.
Proof.
  intros Ho Hp. unfold and_then. rewrite Ho. cbn [bind].
  destruct (ToBoolean outcomes) eqn:Ht.
  - exists prices. now rewrite Hp.
  - exists outcomes. now rewrite Ht.
Qed.

(** When [outcomes] or [outcomeprices] is missing and [tokens] is an array,
    [get-market-prices] renders one line per token, from its [outcome] and
    its [price], a missing price counting as 0. *)
Theorem token_price_lines (data outcomes prices : value) (title : string)
        (tokens : list value) (entries : list (string * float)) :
  interpolate E (or_else (GetV E data "question")
                  (or_else (GetV E data "title") (Ok (VStr "Unknown Market"))))
    = Ok title ->
  GetV E data "outcomes" = Ok outcomes ->
  GetV E data "outcomeprices" = Ok prices ->
  ToBoolean outcomes && ToBoolean prices = false ->
  GetV E data "tokens" = Ok (VArr tokens) ->
  Forall2 (fun token entry =>
             or_else (GetV E token "price") (Ok (VNum 0)) = Ok (VNum (snd entry)) /\
             interpolate E (GetV E token "outcome") = Ok (fst entry))
          tokens entries ->
  marketPrices E data =
    Ok ("Market: " ++ title ++ LF ++ LF
        ++ "Current Prices:" ++ LF
        ++ priceLines E entries).
Proof.
  intros Htitle Ho Hp Hguard Htokens Hall.
  destruct (prices_guard data outcomes prices Ho Hp) as (both & Hboth & Htruth).
  unfold marketPrices. rewrite Htitle. cbn [bind]. rewrite Hboth. cbn [bind].
  rewrite Htruth, Hguard, Htokens. cbn [bind].
  erewrite (forEach_appends _ (priceText E)); [|clear Hall|exact Hall].
  - unfold priceLines. f_equal. simpl. now rewrite !append_assoc.
  - intros token [label p] i acc [Hprice Hlabel]. cbn [fst snd] in *.
    rewrite Hprice. cbn [bind]. rewrite Hlabel. reflexivity.
Qed.

(** When [outcomes] or [outcomeprices] is missing and [tokens] is not an
    array, the text is the header and the no-price-data sentence. *)
Theorem no_price_data (data outcomes prices tokens : value) (title : string) :
  interpolate E (or_else (GetV E data "question")
                  (or_else (GetV E data "title") (Ok (VStr "Unknown Market"))))
    = Ok title ->
  GetV E data "outcomes" = Ok outcomes ->
  GetV E data "outcomeprices" = Ok prices ->
  ToBoolean outcomes && ToBoolean prices = false ->
  GetV E data "tokens" = Ok tokens ->
  (forall ts, tokens <> VArr ts) ->
  marketPrices E data =
    Ok ("Market: " ++ title ++ LF ++ LF
        ++ "No price data available for this market.").
Proof.
  intros Htitle Ho Hp Hguard Htokens Hnot.
  destruct (prices_guard data outcomes prices Ho Hp) as (both & Hboth & Htruth).
  unfold marketPrices. rewrite Htitle. cbn [bind]. rewrite Hboth. cbn [bind].
  rewrite Htruth, Hguard, Htokens. cbn [bind].
  destruct tokens; try (f_equal; simpl; now rewrite !append_assoc).
  now elim (Hnot elems).
Qed.

(** A price that is present and truthy but not a number (a string, say)
    has no [toFixed]: [get-market-prices] throws at the first such outcome,
    so the tool answers with the text of that [TypeError]. *)
Theorem price_not_a_number (data prices price : value) (title key : string)
        (rest : list value) :
  interpolate E (or_else (GetV E data "question")
                  (or_else (GetV E data "title") (Ok (VStr "Unknown Market"))))
    = Ok title ->
  GetV E data "outcomes" = Ok (VArr (VStr key :: rest)) ->
  GetV E data "outcomeprices" = Ok prices ->
  ToBoolean prices = true ->
  priceOrZero E prices key = Ok price ->
  (forall p, price <> VNum p) ->
  marketPrices E data = TypeError E (NotCallable "price.toFixed").
Proof.
  intros Htitle Ho Hp Htruthy Hprice Hnot.
  destruct (prices_guard data _ prices Ho Hp) as (both & Hboth & Htruth).
  unfold marketPrices. rewrite Htitle. cbn [bind]. rewrite Hboth. cbn [bind].
  rewrite Htruth, Htruthy. cbn [ToBoolean andb]. rewrite Ho. cbn [bind forEach].
  rewrite Hp. cbn [bind ToString]. unfold priceOrZero in Hprice. rewrite Hprice.
  cbn [bind]. destruct price; try reflexivity. now elim (Hnot x).
Qed.

(** ** [get-market-info] output *)

Lemma mapM_maps {A B C : Type} (R : A -> C -> Prop) (g : C -> B)
      (f : A -> completion B) :
  (forall x y, R x y -> f x = Ok (g y)) ->
  forall xs ys, Forall2 R xs ys -> mapM f xs = Ok (map g ys).
Proof.
  intros Hf xs ys Hall.
  induction Hall as [|x y xs ys Hxy _ IH]; cbn [mapM map]; [reflexivity|].
  rewrite (Hf x y Hxy). cbn [bind]. rewrite IH. reflexivity.
Qed.

(** With [outcomes] an array of names and a price mapping at hand, the
    [Outcome Prices] line joins, with a comma and a space, each name, a
    colon, a dollar sign and the price as converted to a string, or ["N/A"]
    when the price is falsy: a price of 0 is shown as ["N/A"] too. *)
Theorem outcome_prices_line (data prices : value)
        (os : list value) (entries : list (string * string)) :
  GetV E data "outcomes" = Ok (VArr os) ->
  GetV E data "outcomeprices" = Ok prices ->
  Forall2 (fun o entry =>
             o = VStr (fst entry) /\
             interpolate E (or_else (GetComputed E prices (fst entry))
                                    (Ok (VStr "N/A"))) = Ok (snd entry))
          os entries ->
  outcomePrices E data = Ok (String.concat ", " (map outcomeText entries)) /\
  (forall key,
      GetComputed E prices key = Ok (VNum 0) ->
      interpolate E (or_else (GetComputed E prices key) (Ok (VStr "N/A"))) = Ok "N/A").
Proof.
  intros Ho Hp Hall. split.
  - unfold outcomePrices. rewrite Ho. cbn [bind ToBoolean].
    erewrite (mapM_maps _ outcomeText); [reflexivity| |exact Hall].
    intros o [name shown] [-> Hshown]. cbn [fst snd] in *.
    cbn [ToString bind]. rewrite Hp. cbn [bind]. rewrite Hshown. reflexivity.
  - intros key Hzero. unfold interpolate, or_else. rewrite Hzero. reflexivity.
Qed.

(** An [outcomes] member that is truthy but not an array (a string, say)
    has no [map]: the [Outcome Prices] substitution throws, and so does the
    report. *)
Theorem outcomes_not_an_array (data outcomes : value) :
  GetV E data "outcomes" = Ok outcomes ->
  ToBoolean outcomes = true ->
  (forall os, outcomes <> VArr os) ->
  outcomePrices E data = TypeError E (NotCallable "data.outcomes.map") /\
  exists error, marketInfo E data = Throw error.
Proof.
  intros Ho Htruthy Hnot.
  assert (Hline : outcomePrices E data = TypeError E (NotCallable "data.outcomes.map")).
  { unfold outcomePrices. rewrite Ho. cbn [bind]. rewrite Htruthy.
    destruct outcomes; try reflexivity. now elim (Hnot elems). }
  split; [exact Hline|].
  unfold marketInfo. rewrite Hline. unfold TypeError. clear Hline.
  repeat match goal with
         | |- exists _, bind (Throw _) _ = Throw _ =>
             cbn [bind]; eexists; reflexivity
         | |- exists _, bind ?c _ = Throw _ =>
             destruct c; cbn [bind]; [|eexists; reflexivity]
         end.
  eexists. reflexivity.
Qed.

(** ** Reports on flat payloads *)

Lemma GetV_primitive (props : list (string * value)) (k : string) :
  Forall (fun p => primitive (snd p) = true) props ->
  exists v, GetV E (VObj props) k = Ok v /\ primitive v = true.
Proof.
  intros Hall. cbn [GetV].
  induction Hall as [|[k' x] rest Hx _ IH]; cbn [assoc].
  - exists VUndefined. split; reflexivity.
  - destruct (k' =? k); [exists x; split; [reflexivity | exact Hx] | exact IH].
Qed.

Lemma ToString_primitive (v : value) :
  primitive v = true -> exists s, ToString E v = Ok s.
Proof.
  destruct v; intros H; try discriminate H; cbn [ToString]; eauto.
Qed.

Lemma or_else_primitive (a : completion value) (x fallback : value) :
  a = Ok x -> primitive x = true -> primitive fallback = true ->
  ToBoolean fallback = true \/ nullish fallback = false ->
  exists v,
    or_else a (Ok fallback) = Ok v /\ primitive v = true /\ nullish v = false.
Proof.
  intros -> Hx Hf Hfallback. unfold or_else. cbn [bind].
  destruct (ToBoolean x) eqn:Ht.
  - exists x. repeat split; [exact Hx|]. destruct x; try reflexivity; discriminate Ht.
  - exists fallback. repeat split; [exact Hf|].
    destruct Hfallback as [H|H]; [|exact H].
    destruct fallback; try reflexivity; discriminate H.
Qed.

Lemma toLocaleString_primitive (callee : string) (v : value) :
  primitive v = true -> nullish v = false ->
  exists s, toLocaleString E callee v = Ok s.
Proof.
  destruct v; intros Hp Hn; try discriminate Hp; try discriminate Hn;
    cbn [toLocaleString]; eauto.
Qed.

(** A payload object all of whose members are primitive, and which has no
    [outcomes], always gets a report from [get-market-info]: no member can
    make the rendering throw, and the price line reads ["N/A"]. *)
Theorem flat_payload_report (props : list (string * value)) :
  Forall (fun p => primitive (snd p) = true) props ->
  assoc "outcomes" props = None ->
  exists title category closed endDate volume liquidity description,
    GetV E (VObj props) "closed" = Ok closed /\
    marketInfo E (VObj props) =
      Ok ("Title: " ++ title ++ LF
          ++ "Category: " ++ category ++ LF
          ++ "Status: " ++ (if ToBoolean closed then "Closed" else "Open") ++ LF
          ++ "End Date: " ++ endDate ++ LF
          ++ "Volume: $" ++ volume ++ LF
          ++ "Liquidity: $" ++ liquidity ++ LF
          ++ "Outcome Prices: N/A" ++ LF
          ++ "Description: " ++ description).
Proof.
  intros Hall Hnone.
  assert (Hfield : forall k fallback,
             primitive fallback = true ->
             ToBoolean fallback = true \/ nullish fallback = false ->
             exists v, or_else (GetV E (VObj props) k) (Ok fallback) = Ok v /\
                       primitive v = true /\ nullish v = false).
  { intros k fallback Hf Hfb.
    destruct (GetV_primitive props k Hall) as (x & Hx & Hpx).
    exact (or_else_primitive _ x fallback Hx Hpx Hf Hfb). }
  assert (Htext : forall k fallback,
             primitive fallback = true ->
             ToBoolean fallback = true \/ nullish fallback = false ->
             exists s, interpolate E (or_else (GetV E (VObj props) k) (Ok fallback))
                       = Ok s).
  { intros k fallback Hf Hfb.
    destruct (Hfield k fallback Hf Hfb) as (v & Hv & Hpv & _).
    destruct (ToString_primitive v Hpv) as [s Hs].
    exists s. unfold interpolate. rewrite Hv. exact Hs. }
  assert (Htitle : exists s,
             interpolate E (or_else (GetV E (VObj props) "question")
                             (or_else (GetV E (VObj props) "title") (Ok (VStr "N/A"))))
             = Ok s).
  { destruct (GetV_primitive props "question" Hall) as (q & Hq & Hpq).
    destruct (Hfield "title" (VStr "N/A") eq_refl (or_introl eq_refl))
      as (t & Ht & Hpt & _).
    unfold interpolate, or_else at 1. rewrite Hq. cbn [bind].
    destruct (ToBoolean q).
    - cbn [bind]. now apply ToString_primitive.
    - rewrite Ht. cbn [bind]. now apply ToString_primitive. }
  assert (Hamount : forall k callee,
             exists s, (v <- or_else (GetV E (VObj props) k) (Ok (VNum 0)) ;;
                        toLocaleString E callee v) = Ok s).
  { intros k callee.
    destruct (Hfield k (VNum 0) eq_refl (or_intror eq_refl)) as (v & Hv & Hpv & Hnv).
    rewrite Hv. cbn [bind]. now apply toLocaleString_primitive. }
  destruct Htitle as [title Htitle].
  destruct (Htext "category" (VStr "N/A") eq_refl (or_introl eq_refl))
    as [category Hcategory].
  destruct (GetV_primitive props "closed" Hall) as (closed & Hclosed & _).
  destruct (Htext "end_date_iso" (VStr "N/A") eq_refl (or_introl eq_refl))
    as [endDate HendDate].
  destruct (Hamount "volume" "(data.volume || 0).toLocaleString") as [volume Hvolume].
  destruct (Hamount "liquidity" "(data.liquidity || 0).toLocaleString")
    as [liquidity Hliquidity].
  destruct (Htext "description" (VStr "No description available") eq_refl
                  (or_introl eq_refl)) as [description Hdescription].
  exists title, category, closed, endDate, volume, liquidity, description.
  split; [exact Hclosed|].
  assert (Hline : outcomePrices E (VObj props) = Ok "N/A").
  { unfold outcomePrices. cbn [GetV]. rewrite Hnone. reflexivity. }
  unfold marketInfo.
  rewrite Htitle. cbn [bind]. rewrite Hcategory. cbn [bind].
  rewrite Hclosed. cbn [bind]. rewrite HendDate. cbn [bind].
  rewrite Hvolume. cbn [bind]. rewrite Hliquidity. cbn [bind].
  rewrite Hline. cbn [bind]. rewrite Hdescription. reflexivity.
Qed.

(** ** The life of a stream *)

(** While the stream is open, each tick of the interval adds exactly one
    keep-alive comment and leaves the interval set. *)
Theorem keep_alive_ticks (st : sse) (n : nat) :
  keepAlive st = true ->
  closed st = false ->
  frames (run E st (repeat Tick n)) = (frames st ++ repeat keepaliveFrame n)%list /\
  keepAlive (run E st (repeat Tick n)) = true /\
  closed (run E st (repeat Tick n)) = false.
Proof.
  revert st. induction n as [|n IH]; intros st Hk Hc.
  - cbn. now rewrite app_nil_r.
  - change (run E st (repeat Tick (S n)))
      with (run E (fire E st Tick) (repeat Tick n)).
    assert (Hfire : fire E st Tick
                    = mkSse (frames st ++ [keepaliveFrame])%list true false
                            (abortListener st)).
    { cbn [fire]. rewrite Hk. unfold keepAliveTick, enqueue. rewrite Hc, Hk.
      reflexivity. }
    rewrite Hfire.
    destruct (IH (mkSse (frames st ++ [keepaliveFrame])%list true false
                        (abortListener st)) eq_refl eq_refl) as (Hf & Hk' & Hc').
    cbn [frames] in Hf. rewrite Hf, <- app_assoc. auto.
Qed.

(** When the consumer has cancelled the stream, the next tick fails to
    enqueue; the failure is swallowed and clears the interval, and from then
    on no event adds a chunk. *)
Theorem tick_after_cancel (st : sse) (evs : list event) :
  keepAlive st = true ->
  keepAlive (fire E (fire E st Cancel) Tick) = false /\
  frames (fire E (fire E st Cancel) Tick) = frames st /\
  frames (run E (fire E (fire E st Cancel) Tick) evs) = frames st.
Proof.
  intros Hk.
  assert (Hfire : fire E (fire E st Cancel) Tick
                  = mkSse (frames st) false true (abortListener st)).
  { cbn [fire keepAlive]. rewrite Hk. reflexivity. }
  rewrite Hfire. split; [reflexivity|]. split; [reflexivity|].
  destruct (run_stopped evs (mkSse (frames st) false true (abortListener st)))
    as [_ Hf]; [split; reflexivity | exact Hf].
Qed.

(** ** The framing of an event *)

Lemma noLF_append (s t : string) : noLF (s ++ t) = noLF s && noLF t.
Proof.
  induction s as [|c s IH]; cbn [noLF append]; [reflexivity|].
  now rewrite IH, andb_assoc.
Qed.

Lemma noLF_concat (sep : string) (l : list string) :
  noLF sep = true -> Forall (fun s => noLF s = true) l ->
  noLF (String.concat sep l) = true.
Proof.
  intros Hsep Hall. induction Hall as [|s l Hs _ IH]; [reflexivity|].
  cbn [String.concat]. destruct l as [|t l]; [exact Hs|].
  now rewrite !noLF_append, Hs, Hsep, IH.
Qed.

Lemma noLF_between (l r s : string) :
  noLF l = true -> noLF r = true -> noLF s = true -> noLF (l ++ s ++ r) = true.
Proof. intros Hl Hr Hs. now rewrite !noLF_append, Hl, Hr, Hs. Qed.

Lemma noLF_digits (d : Decimal.uint) : noLF (NilEmpty.string_of_uint d) = true.
Proof. induction d; cbn; auto. Qed.

Lemma noLF_decimal (n : N) : noLF (decimal n) = true.
Proof.
  unfold decimal, NilZero.string_of_uint.
  destruct (N.to_uint n); try reflexivity; apply noLF_digits.
Qed.

Lemma noLF_quoteUnits (s : string) : noLF (quoteUnits s) = true.
Proof.
  induction s as [|c s IH]; [reflexivity|].
  cbn [quoteUnits]. rewrite noLF_append, IH, andb_true_r.
  destruct c as [[] [] [] [] [] [] [] []]; reflexivity.
Qed.

Lemma noLF_Number_toString (x : float) :
  (forall y, noLF (shortestDecimal E y) = true) ->
  noLF (Number_toString E x) = true.
Proof.
  intros Hshort. unfold Number_toString.
  destruct (Prim2SF x) as [[]|[]| |s m e]; try reflexivity.
  destruct (safeInteger m e); [|apply Hshort].
  rewrite noLF_append, noLF_decimal. now destruct s.
Qed.

Lemma noLF_JSON_stringify :
  (forall y, noLF (shortestDecimal E y) = true) ->
  forall v t, JSON_stringify E v = Some t -> noLF t = true.
Proof.
  intros Hshort v.
  induction v as [| |b|x|s|elems IH|props IH|k] using value_induction;
    intros t Ht; cbn [JSON_stringify] in Ht; try discriminate Ht;
    injection Ht as <-.
  - reflexivity.
  - now destruct b.
  - destruct (finite x); [now apply noLF_Number_toString | reflexivity].
  - refine (noLF_between DQ DQ _ eq_refl eq_refl (noLF_quoteUnits s)).
  - refine (noLF_between "[" "]" _ eq_refl eq_refl _).
    apply noLF_concat; [reflexivity|].
    induction IH as [|x rest Hx _ IHrest]; constructor; [|exact IHrest].
    destruct (JSON_stringify E x) as [t|]; [now apply Hx | reflexivity].
  - refine (noLF_between "{" "}" _ eq_refl eq_refl _).
    apply noLF_concat; [reflexivity|].
    induction IH as [|[key x] rest Hx _ IHrest]; [constructor|].
    cbn [snd] in Hx.
    destruct (JSON_stringify E x) as [t|] eqn:Hjson; [|exact IHrest].
    constructor; [|exact IHrest].
    refine (noLF_between (QuoteJSONString key) t ":" _ (Hx t eq_refl) eq_refl).
    refine (noLF_between DQ DQ _ eq_refl eq_refl (noLF_quoteUnits key)).
Qed.

(** Every message [sendSSEMessage] enqueues on an open stream is one
    [data:] line followed by an empty line: the JSON text it carries has no
    line feed, whatever the data, provided the engine prints numbers without
    one. *)
Theorem sse_message_is_one_line (data : value) (st : sse) :
  (forall y, noLF (shortestDecimal E y) = true) ->
  closed st = false ->
  exists payload,
    sendSSEMessage E data st =
      Ok (mkSse (frames st ++ [("data: " ++ payload ++ LF ++ LF)%string])%list
                (keepAlive st) false (abortListener st)) /\
    noLF payload = true /\
    (forall t, JSON_stringify E data = Some t -> payload = t).
Proof.
  intros Hshort Hopen. unfold sendSSEMessage, enqueue. rewrite Hopen.
  destruct (JSON_stringify E data) as [t|] eqn:Hjson.
  - exists t. split; [reflexivity|]. split.
    + exact (noLF_JSON_stringify Hshort data t Hjson).
    + intros t' Ht'. now inversion Ht'.
  - exists "undefined". split; [reflexivity|]. split; [reflexivity|].
    intros t Ht. discriminate Ht.
Qed.

End Properties.

(** * The claims on concrete requests *)

(** C4, at a payload that has outcomes and no [outcomeprices].  The price
    lookup of [get-market-info] reads a property of [undefined]: the tool
    resolves to the text of that [TypeError], not to a report whose price is
    ["N/A"].  [get-market-prices], which tests [outcomeprices] before it
    reads from it, renders the same payload. *)
Theorem C4_absent_outcomeprices_throws (E : Engine) :
  outcomePrices E Sample.unpriced = TypeError E (ReadOfNullish VUndefined "Yes") /\
  executeTool E (Sample.answering 200 "" Sample.unpriced)
              (VStr "get-market-info") (VObj [("market_id", VStr "m")])
    = Ok ("Error: " ++ faultMessage E (ReadOfNullish VUndefined "Yes")) /\
  executeTool E (Sample.answering 200 "" Sample.unpriced)
              (VStr "get-market-prices") (VObj [("market_id", VStr "m")])
    = Ok ("Market: Q" ++ LF ++ LF ++ "No price data available for this market.").
Proof. repeat split. Qed.

(** The request that shows the envelope without [id]: a [tools/call] with
    id 1 and no [params]. *)
Lemma C1_envelope_drops_id :
  ~ echoesId Sample.engine (Sample.answering 200 "" VNull)
      (Sample.post (VObj [("jsonrpc", VStr "2.0"); ("id", VNum 1);
                          ("method", VStr "tools/call")])).
Proof.
  intros H.
  specialize (H _ _ eq_refl eq_refl). discriminate H.
Qed.

(** [list-markets] with [limit] and [offset] 0: the query object holds
    [closed] alone. *)
Example list_markets_zero_limit :
  listMarketsParams Sample.engine
    (VObj [("closed", VBool false); ("limit", VNum 0); ("offset", VNum 0)])
  = Ok [("closed", VBool false)].
Proof. reflexivity. Qed.

(** On the wire a boolean [closed] is sent as its name. *)
Example list_markets_zero_limit_query :
  appendParams Sample.engine [("closed", VBool false)] [] = Ok [("closed", "false")].
Proof. reflexivity. Qed.

Lemma C7_witness :
  marketList Sample.engine (VArr []) =
    Ok "No markets found with the specified criteria." /\
  executeTool Sample.engine (Sample.answering 200 "[]" (VArr []))
              (VStr "list-markets") (VObj [])
    = Ok "No markets found with the specified criteria.".
Proof.
  apply (C7_no_markets Sample.engine (Sample.answering 200 "[]" (VArr []))
           (VObj []) [] (VArr [])).
  - reflexivity.
  - reflexivity.
  - right. right. reflexivity.
Defined.

(** Two ticks, an abort, two more ticks: three chunks, the last two the
    keep-alive comments sent before the abort. *)
Example stream_trace :
  frames (run Sample.engine (mkSse [establishedFrame] true false true)
              [Tick; Tick; Abort; Tick; Tick])
  = [establishedFrame; ": keepalive" ++ LF ++ LF; ": keepalive" ++ LF ++ LF].
Proof. reflexivity. Qed.

Lemma C9_witness :
  (forall response,
      toolsCall Sample.engine (Sample.answering 200 "" VNull)
                (VObj [("jsonrpc", VStr "2.0"); ("id", VNum 1);
                       ("method", VStr "tools/call")]) response
      = TypeError Sample.engine (ReadOfNullish VUndefined "name")) /\
  exists resp,
    handler Sample.engine (Sample.answering 200 "" VNull)
            (Sample.post (VObj [("jsonrpc", VStr "2.0"); ("id", VNum 1);
                                ("method", VStr "tools/call")])) = Ok resp /\
    status resp = 500 /\
    response_body resp =
      BodyJSON (VObj [("jsonrpc", VStr "2.0");
                      ("error",
                        VObj [("code", VNum (-32603));
                              ("message", VStr "Internal error");
                              ("data",
                                VStr (exn_toString
                                        (mkExn "TypeError"
                                           (faultMessage Sample.engine
                                              (ReadOfNullish VUndefined "name")))))])]) /\
    bodyField (response_body resp) "result" = VUndefined.
Proof.
  apply (C9_tools_call_without_params Sample.engine (Sample.answering 200 "" VNull)
           (Sample.post (VObj [("jsonrpc", VStr "2.0"); ("id", VNum 1);
                               ("method", VStr "tools/call")]))
           (VObj [("jsonrpc", VStr "2.0"); ("id", VNum 1);
                  ("method", VStr "tools/call")])); reflexivity.
Defined.

(** [prompts/list] with id 7. *)
Lemma C1_witness :
  (exists resp text,
     handler Sample.engine Sample.idle Sample.prompts = Ok resp /\
     sentText Sample.engine (response_body resp) = Some text /\
     ((status resp = 200 /\
       exists message id key payload payloadText,
         req_json Sample.prompts = Ok message /\
         GetV Sample.engine message "id" = Ok id /\
         (key = "result" \/ key = "error") /\
         JSON_stringify Sample.engine (VObj payload) = Some payloadText /\
         text =
           "{" ++ String.concat ","
                   (((inQuotes "jsonrpc" ++ ":" ++ inQuotes "2.0")%string
                       :: idMember Sample.engine id)
                      ++ [(inQuotes key ++ ":" ++ payloadText)%string])%list
               ++ "}")
      \/
      (status resp = 500 /\
       exists error,
         handleMessage Sample.engine Sample.idle Sample.prompts = Throw error /\
         text =
           "{" ++ String.concat ","
                   [inQuotes "jsonrpc" ++ ":" ++ inQuotes "2.0";
                    inQuotes "error" ++ ":"
                      ++ "{" ++ String.concat ","
                                 [inQuotes "code" ++ ":" ++ "-32603";
                                  inQuotes "message" ++ ":" ++ inQuotes "Internal error";
                                  inQuotes "data" ++ ":"
                                    ++ QuoteJSONString (exn_toString error)]
                      ++ "}"]
               ++ "}"))) /\
  (forall s, idMember Sample.engine (VStr s) = [inQuotes "id" ++ ":" ++ QuoteJSONString s]) /\
  (forall x,
      idMember Sample.engine (VNum x) =
        [inQuotes "id" ++ ":" ++ (if finite x then Number_toString Sample.engine x else "null")]) /\
  idMember Sample.engine VNull = [inQuotes "id" ++ ":" ++ "null"] /\
  idMember Sample.engine VUndefined = [].
Proof.
  apply (C1_id_in_sent_text Sample.engine Sample.idle Sample.prompts); reflexivity.
Defined.

(** The text sent for that request, and for one whose id is no finite
    number. *)
Example prompts_list_text :
  exists resp,
    handler Sample.engine Sample.idle Sample.prompts = Ok resp /\
    sentText Sample.engine (response_body resp) =
      Some ("{" ++ inQuotes "jsonrpc" ++ ":" ++ inQuotes "2.0" ++ ","
                ++ inQuotes "id" ++ ":7,"
                ++ inQuotes "result" ++ ":{" ++ inQuotes "prompts" ++ ":[]}}").
Proof. eexists. split; reflexivity. Qed.

Example infinite_id_text :
  exists resp,
    handler Sample.engine Sample.idle
            (Sample.post (Sample.rpc (VNum infinity) (VStr "prompts/list"))) = Ok resp /\
    sentText Sample.engine (response_body resp) =
      Some ("{" ++ inQuotes "jsonrpc" ++ ":" ++ inQuotes "2.0" ++ ","
                ++ inQuotes "id" ++ ":null,"
                ++ inQuotes "result" ++ ":{" ++ inQuotes "prompts" ++ ":[]}}").
Proof. eexists. split; reflexivity. Qed.

(** [tools/call] for [get-market-info] against an upstream answering 404. *)
Lemma C2_witness :
  exists error,
    runTool Sample.engine (Sample.answering 404 "Not Found" VNull)
            (VStr "get-market-info") (VObj [("market_id", VStr "nope")]) = Throw error /\
    exn_message error = "Polymarket API error: 404 - Not Found" /\
    handler Sample.engine (Sample.answering 404 "Not Found" VNull)
            (Sample.post (Sample.call (VNum 1) "get-market-info"
                                      (VObj [("market_id", VStr "nope")]))) =
      Ok (mkResponse 200 jsonHeaders
            (BodyJSON
               (VObj [("jsonrpc", VStr "2.0"); ("id", VNum 1);
                      ("result",
                        VObj [("content",
                                VArr [VObj [("type", VStr "text");
                                            ("text",
                                              VStr ("Error: " ++ exn_message error))]])])]))).
Proof.
  destruct (proj2 (proj2 (C2_failures_become_text
                            Sample.engine (Sample.answering 404 "Not Found" VNull)))
              (Sample.post (Sample.call (VNum 1) "get-market-info"
                                        (VObj [("market_id", VStr "nope")])))
              (Sample.call (VNum 1) "get-market-info" (VObj [("market_id", VStr "nope")]))
              (VObj [("name", VStr "get-market-info");
                     ("arguments", VObj [("market_id", VStr "nope")])])
              "get-market-info" (mkFetched 404 (Ok "Not Found") (Ok VNull))
              eq_refl eq_refl eq_refl eq_refl eq_refl eq_refl
              (or_introl eq_refl) (fun _ => eq_refl) eq_refl)
    as (id & args & error & Hid & Hargs & Hrun & Hhandler & Hmessage).
  cbv in Hid. injection Hid as <-.
  cbv in Hargs. injection Hargs as <-.
  exists error. split; [exact Hrun|]. split; [|exact Hhandler].
  refine (proj1 (Hmessage "Not Found" eq_refl) _ "nope" eq_refl).
  intros H. discriminate H.
Defined.



(** A method that is the number 5. *)
Lemma C5_witness :
  exists resp,
    handler Sample.engine Sample.idle (Sample.post (Sample.rpc (VNum 1) (VNum 5)))
      = Ok resp /\
    status resp = 200 /\
    response_body resp =
      BodyJSON (VObj [("jsonrpc", VStr "2.0"); ("id", VNum 1);
                      ("error",
                        VObj [("code", VNum (-32601));
                              ("message", VStr ("Method not found: " ++ "5"))])]) /\
    bodyField (response_body resp) "result" = VUndefined.
Proof.
  destruct (C5_method_outside_the_set Sample.engine Sample.idle
              (Sample.post (Sample.rpc (VNum 1) (VNum 5)))
              (Sample.rpc (VNum 1) (VNum 5)) (VNum 5)
              eq_refl eq_refl eq_refl eq_refl)
    as (id & Hid & Hshown & _).
  - intros m _ H. discriminate H.
  - cbv in Hid. injection Hid as <-.
    exact (Hshown "5" eq_refl).
Defined.

(** A method that cannot be converted to a string is answered with the
    HTTP 500 envelope. *)
Lemma C5_unconvertible_method :
  ~ answersMethodNotFound Sample.engine Sample.idle Sample.opaqueMethod.
Proof.
  intros H.
  destruct (H (Sample.rpc (VNum 1) Sample.opaque) Sample.opaque eq_refl eq_refl)
    as (resp & msg & Hhandler & Hstatus & _).
  - intros m _ Hm. discriminate Hm.
  - vm_compute in Hhandler. injection Hhandler as <-. discriminate Hstatus.
Qed.

Example unconvertible_method_answer :
  handler Sample.engine Sample.idle Sample.opaqueMethod =
    Ok (mkResponse 500 jsonHeaders
          (BodyJSON (VObj [("jsonrpc", VStr "2.0");
                           ("error",
                             VObj [("code", VNum (-32603));
                                   ("message", VStr "Internal error");
                                   ("data",
                                     VStr "TypeError: Cannot convert object to primitive value")])]))).
Proof. reflexivity. Qed.



Example inherited_name_answer :
  executeTool Sample.engine (Sample.answering 200 "" Sample.inheritedName)
              (VStr "get-market-prices") (VObj [("market_id", VStr "q")])
  = Ok "Error: price.toFixed is not a function".
Proof. reflexivity. Qed.



Example aborted_before_open_trace :
  exists stream,
    handler Sample.engine Sample.idle Sample.abortedEarly =
      Ok (mkResponse 200
            (corsHeaders ++ [("Content-Type", "text/event-stream");
                             ("Cache-Control", "no-cache");
                             ("Connection", "keep-alive")])%list
            (BodyStream stream)) /\
    frames (run Sample.engine stream [Abort; Tick; Tick])
      = [establishedFrame; keepaliveFrame; keepaliveFrame].
Proof. eexists. split; reflexivity. Qed.

(** A [tools/call] naming a tool that does not exist. *)
Lemma C10_witness :
  executeTool Sample.engine Sample.idle (VStr "no-such-tool") (VObj [])
    = Ok ("Error: Unknown tool: " ++ "no-such-tool") /\
  exists id,
    GetV Sample.engine (Sample.call (VNum 1) "no-such-tool" (VObj [])) "id" = Ok id /\
    handler Sample.engine Sample.idle
            (Sample.post (Sample.call (VNum 1) "no-such-tool" (VObj []))) =
      Ok (mkResponse 200 jsonHeaders
            (BodyJSON
               (VObj [("jsonrpc", VStr "2.0"); ("id", id);
                      ("result",
                        VObj [("content",
                                VArr [VObj [("type", VStr "text");
                                            ("text",
                                              VStr ("Error: Unknown tool: "
                                                      ++ "no-such-tool"))]])])]))).
Proof.
  destruct (C10_name_outside_the_tools Sample.engine Sample.idle
              (VStr "no-such-tool") (VObj [])) as (Hshown & _ & _).
  - intros tool [<-|[<-|[<-|[]]]] H; discriminate H.
  - destruct (Hshown "no-such-tool" eq_refl) as (Htext & Hhandler).
    split; [exact Htext|].
    exact (Hhandler (Sample.post (Sample.call (VNum 1) "no-such-tool" (VObj [])))
             (Sample.call (VNum 1) "no-such-tool" (VObj []))
             (VObj [("name", VStr "no-such-tool"); ("arguments", VObj [])])
             eq_refl eq_refl eq_refl eq_refl eq_refl eq_refl).
Defined.

(** A [tools/call] whose name cannot be converted to a string is answered
    with the HTTP 500 envelope. *)
Lemma C10_unconvertible_name :
  ~ answeredWithResult Sample.engine Sample.idle
      (Sample.post (Sample.callNamed Sample.opaque)).
Proof.
  intros H.
  destruct (H (Sample.callNamed Sample.opaque) (VObj [("name", Sample.opaque)])
              Sample.opaque _ eq_refl eq_refl eq_refl eq_refl
              (fun tool _ Hname => ltac:(discriminate Hname)) eq_refl)
    as [Hstatus _].
  discriminate Hstatus.
Qed.

Example unconvertible_name_answer :
  executeTool Sample.engine Sample.idle Sample.opaque (VObj [])
    = Ok "Error: Cannot convert object to primitive value" /\
  handler Sample.engine Sample.idle (Sample.post (Sample.callNamed Sample.opaque)) =
    Ok (mkResponse 500 jsonHeaders
          (BodyJSON (VObj [("jsonrpc", VStr "2.0");
                           ("error",
                             VObj [("code", VNum (-32603));
                                   ("message", VStr "Internal error");
                                   ("data",
                                     VStr "TypeError: Cannot convert object to primitive value")])]))).
Proof. split; reflexivity. Qed.

(** * The further properties on concrete requests *)


Lemma malformed_body_witness :
  handler Sample.engine Sample.idle Sample.unparsed =
    Ok (mkResponse 500 jsonHeaders
          (BodyJSON (VObj [("jsonrpc", VStr "2.0");
                           ("error",
                             VObj [("code", VNum (-32603));
                                   ("message", VStr "Internal error");
                                   ("data",
                                     VStr "SyntaxError: Unexpected end of JSON input")])]))).
Proof.
  exact (malformed_body Sample.engine Sample.unparsed
           (mkExn "SyntaxError" "Unexpected end of JSON input")
           eq_refl eq_refl eq_refl Sample.idle).
Defined.

(** The body [[1, 2]]. *)
Lemma body_not_an_object_witness :
  exists resp,
    handler Sample.engine Sample.idle (Sample.post (VArr [VNum 1; VNum 2])) = Ok resp /\
    status resp = 200 /\
    bodyField (response_body resp) "id" = VUndefined /\
    bodyField (response_body resp) "error" =
      VObj [("code", VNum (-32601)); ("message", VStr "Method not found: undefined")].
Proof.
  destruct (body_not_an_object Sample.engine Sample.idle
              (Sample.post (VArr [VNum 1; VNum 2])) (VArr [VNum 1; VNum 2])
              eq_refl eq_refl eq_refl I)
    as (resp & Hresp & Hid & _ & _ & Hother).
  exists resp. destruct Hother as [Hstatus Herror]; [discriminate|].
  repeat split; assumption.
Defined.

(** A request without [method]. *)
Lemma method_not_a_string_witness :
  handler Sample.engine Sample.idle
          (Sample.post (VObj [("jsonrpc", VStr "2.0"); ("id", VNum 4)])) =
    Ok (mkResponse 200 jsonHeaders
          (BodyJSON (VObj [("jsonrpc", VStr "2.0"); ("id", VNum 4);
                           ("error",
                             VObj [("code", VNum (-32601));
                                   ("message",
                                     VStr "Method not found: undefined")])]))).
Proof.
  destruct (method_not_a_string Sample.engine Sample.idle
              (Sample.post (VObj [("jsonrpc", VStr "2.0"); ("id", VNum 4)]))
              (VObj [("jsonrpc", VStr "2.0"); ("id", VNum 4)]) VUndefined
              eq_refl eq_refl eq_refl eq_refl)
    as (id & Hid & Hshown & _).
  - intros m. discriminate.
  - injection Hid as <-. exact (Hshown "undefined" eq_refl).
Defined.

(** [tools/list] on a network that rejects every call. *)
Lemma static_methods_witness :
  handler Sample.engine Sample.offline
          (Sample.post (Sample.rpc (VStr "a") (VStr "tools/list"))) =
    Ok (mkResponse 200 jsonHeaders
          (BodyJSON (VObj [("jsonrpc", VStr "2.0"); ("id", VStr "a");
                           ("result", VObj [("tools", tools)])]))).
Proof.
  destruct (static_methods Sample.engine
              (Sample.post (Sample.rpc (VStr "a") (VStr "tools/list")))
              (Sample.rpc (VStr "a") (VStr "tools/list")) "tools/list"
              eq_refl eq_refl eq_refl eq_refl)
    as (id & result & Hid & Hresp & _ & Hlist & _).
  - simpl. auto.
  - injection Hid as <-. rewrite <- (Hlist eq_refl). apply Hresp.
Defined.

(** A [tools/call] whose tool name is the number 5. *)
Lemma tools_call_wraps_text_witness :
  exists resp,
    handler Sample.engine Sample.idle (Sample.post (Sample.callNamed (VNum 5)))
      = Ok resp /\
    status resp = 200 /\
    response_body resp =
      BodyJSON (VObj [("jsonrpc", VStr "2.0"); ("id", VNum 1);
                      ("result", textContent "Error: Unknown tool: 5")]).
Proof.
  destruct (tools_call_wraps_text Sample.engine Sample.idle
              (Sample.post (Sample.callNamed (VNum 5))) (Sample.callNamed (VNum 5))
              (VObj [("name", VNum 5)]) (VNum 5) "5"
              eq_refl eq_refl eq_refl eq_refl eq_refl eq_refl eq_refl)
    as (id & text & resp & Hid & Hresp & Hstatus & Hbody & _ & Htext).
  exists resp. split; [exact Hresp|]. split; [exact Hstatus|].
  injection Hid as <-. rewrite Hbody, Htext; [reflexivity|].
  intros tool. discriminate.
Defined.

Lemma tool_name_not_convertible_witness :
  handler Sample.engine Sample.idle (Sample.post (Sample.callNamed Sample.opaque)) =
    Ok (mkResponse 500 jsonHeaders
          (BodyJSON (internalError
                       (mkExn "TypeError" "Cannot convert object to primitive value")))).
Proof.
  exact (tool_name_not_convertible Sample.engine
           (Sample.post (Sample.callNamed Sample.opaque))
           (Sample.callNamed Sample.opaque) (VObj [("name", Sample.opaque)])
           Sample.opaque (mkExn "TypeError" "Cannot convert object to primitive value")
           eq_refl eq_refl eq_refl eq_refl eq_refl eq_refl eq_refl Sample.idle).
Defined.

Lemma market_not_found_witness :
  executeTool Sample.engine Sample.idle (VStr "get-market-prices")
              (VObj [("market_id", VStr "gone")])
    = Ok "Market not found. Please check the market ID or slug.".
Proof.
  apply (market_not_found Sample.engine Sample.idle "get-market-prices" "gone"
           (VObj [("market_id", VStr "gone")]) VNull).
  - simpl. auto.
  - reflexivity.
  - reflexivity.
  - reflexivity.
Defined.

(** No [market_id] at all behaves as the id ["undefined"]. *)
Lemma market_id_only_witness :
  executeTool Sample.engine Sample.idle (VStr "get-market-info") (VObj []) =
  executeTool Sample.engine Sample.idle (VStr "get-market-info")
              (VObj [("market_id", VStr "undefined")]).
Proof.
  apply (market_id_only Sample.engine Sample.idle "get-market-info"
           (VObj []) (VObj [("market_id", VStr "undefined")])).
  - simpl. auto.
  - reflexivity.
Defined.

Lemma query_skips_nullish_witness :
  map fst [("closed", "true"); ("offset", "20")] =
  map fst (filter (fun p => negb (nullish (snd p)))
             [("closed", VBool true); ("limit", VNull); ("offset", VNum 20)]).
Proof.
  refine (proj2 (query_skips_nullish Sample.engine
                   [("closed", VBool true); ("limit", VNull); ("offset", VNum 20)]
                   [("closed", "true"); ("offset", "20")] _)).
  reflexivity.
Defined.

(** Arguments with a stray member. *)
Lemma list_markets_keys_witness :
  exists c l o : bool,
    map fst [("closed", "false"); ("limit", "5")] =
      ((if c then ["closed"] else []) ++ (if l then ["limit"] else [])
         ++ (if o then ["offset"] else []))%list /\
    (forall key, ~ In key ["closed"; "limit"; "offset"] ->
                 assoc key [("closed", VBool false); ("limit", VNum 5)] = None) /\
    (forall limit,
        assoc "limit" [("closed", VBool false); ("limit", VNum 5)] = Some limit ->
        ToBoolean limit = true) /\
    (forall offset,
        assoc "offset" [("closed", VBool false); ("limit", VNum 5)] = Some offset ->
        ToBoolean offset = true).
Proof.
  apply (list_markets_sends_three_keys Sample.engine
           (VObj [("limit", VNum 5); ("tag", VStr "sports"); ("closed", VBool false)])).
  - reflexivity.
  - reflexivity.
Defined.

(** An object payload is never listed. *)
Lemma listing_needs_array_witness :
  "No markets found with the specified criteria."
    = "No markets found with the specified criteria." \/
  exists market markets, VObj [("length", VNum 0)] = VArr (market :: markets).
Proof.
  apply (listing_needs_array Sample.engine (VObj [("length", VNum 0)])).
  reflexivity.
Defined.

Lemma token_price_lines_witness :
  marketPrices Sample.engine Sample.tokenized =
    Ok ("Market: T" ++ LF ++ LF
        ++ "Current Prices:" ++ LF
        ++ "Yes: $0.6000 (60.0%)" ++ LF
        ++ "No: $0.0000 (0.0%)" ++ LF).
Proof.
  refine (token_price_lines Sample.engine Sample.tokenized VUndefined VUndefined "T"
            [VObj [("outcome", VStr "Yes"); ("price", VNum Sample.p06)];
             VObj [("outcome", VStr "No")]]
            [("Yes", Sample.p06); ("No", 0%float)]
            eq_refl eq_refl eq_refl eq_refl eq_refl _).
  repeat constructor.
Defined.

Lemma no_price_data_witness :
  marketPrices Sample.engine Sample.bare =
    Ok ("Market: Q" ++ LF ++ LF ++ "No price data available for this market.").
Proof.
  refine (no_price_data Sample.engine Sample.bare VUndefined VUndefined VUndefined "Q"
            eq_refl eq_refl eq_refl eq_refl eq_refl _).
  intros ts. discriminate.
Defined.

Lemma price_not_a_number_witness :
  marketPrices Sample.engine Sample.quoted =
    TypeError Sample.engine (NotCallable "price.toFixed").
Proof.
  refine (price_not_a_number Sample.engine Sample.quoted
            (VObj [("Yes", VStr "0.6")]) (VStr "0.6") "Q" "Yes" []
            eq_refl eq_refl eq_refl eq_refl eq_refl _).
  intros p. discriminate.
Defined.

Lemma outcome_prices_line_witness :
  outcomePrices Sample.engine Sample.partial = Ok "Yes: $0.6, No: $N/A, Maybe: $N/A".
Proof.
  refine (proj1 (outcome_prices_line Sample.engine Sample.partial
                   (VObj [("Yes", VStr "0.6"); ("No", VNum 0)])
                   [VStr "Yes"; VStr "No"; VStr "Maybe"]
                   [("Yes", "0.6"); ("No", "N/A"); ("Maybe", "N/A")]
                   eq_refl eq_refl _)).
  repeat constructor.
Defined.

Lemma outcomes_not_an_array_witness :
  outcomePrices Sample.engine Sample.packed
    = TypeError Sample.engine (NotCallable "data.outcomes.map") /\
  exists error, marketInfo Sample.engine Sample.packed = Throw error.
Proof.
  apply (outcomes_not_an_array Sample.engine Sample.packed (VStr "[Yes, No]")).
  - reflexivity.
  - reflexivity.
  - intros os. discriminate.
Defined.

Lemma flat_payload_report_witness :
  exists title category closed endDate volume liquidity description,
    GetV Sample.engine (VObj Sample.flat) "closed" = Ok closed /\
    marketInfo Sample.engine (VObj Sample.flat) =
      Ok ("Title: " ++ title ++ LF
          ++ "Category: " ++ category ++ LF
          ++ "Status: " ++ (if ToBoolean closed then "Closed" else "Open") ++ LF
          ++ "End Date: " ++ endDate ++ LF
          ++ "Volume: $" ++ volume ++ LF
          ++ "Liquidity: $" ++ liquidity ++ LF
          ++ "Outcome Prices: N/A" ++ LF
          ++ "Description: " ++ description).
Proof.
  apply (flat_payload_report Sample.engine Sample.flat).
  - repeat constructor.
  - reflexivity.
Defined.

(** Three ticks on a fresh stream. *)
Lemma keep_alive_ticks_witness :
  frames (run Sample.engine Sample.opened [Tick; Tick; Tick]) =
    [establishedFrame; keepaliveFrame; keepaliveFrame; keepaliveFrame] /\
  keepAlive (run Sample.engine Sample.opened [Tick; Tick; Tick]) = true /\
  closed (run Sample.engine Sample.opened [Tick; Tick; Tick]) = false.
Proof.
  exact (keep_alive_ticks Sample.engine Sample.opened 3 eq_refl eq_refl).
Defined.

Lemma tick_after_cancel_witness :
  keepAlive (fire Sample.engine (fire Sample.engine Sample.opened Cancel) Tick)
    = false /\
  frames (fire Sample.engine (fire Sample.engine Sample.opened Cancel) Tick)
    = [establishedFrame] /\
  frames (run Sample.engine
              (fire Sample.engine (fire Sample.engine Sample.opened Cancel) Tick)
              [Tick; Abort; Tick])
    = [establishedFrame].
Proof.
  exact (tick_after_cancel Sample.engine Sample.opened [Tick; Abort; Tick] eq_refl).
Defined.

(** A text with a line feed in it travels on one line. *)
Lemma sse_message_witness :
  exists payload,
    sendSSEMessage Sample.engine (VStr ("two" ++ LF ++ "lines"))
                   (mkSse [] false false false) =
      Ok (mkSse ([] ++ [("data: " ++ payload ++ LF ++ LF)%string])%list
                false false false) /\
    noLF payload = true /\
    (forall t,
        JSON_stringify Sample.engine (VStr ("two" ++ LF ++ "lines")) = Some t ->
        payload = t).
Proof.
  apply (sse_message_is_one_line Sample.engine (VStr ("two" ++ LF ++ "lines"))
           (mkSse [] false false false)).
  - intros y. reflexivity.
  - reflexivity.
Defined.

Lemma network_failure_witness :
  executeTool Sample.engine Sample.offline (VStr "list-markets")
              (VObj [("closed", VBool false)])
    = Ok "Error: fetch failed".
Proof.
  apply (network_failure_is_text Sample.engine Sample.offline "list-markets"
           (VObj [("closed", VBool false)]) (mkExn "TypeError" "fetch failed")).
  - simpl. auto.
  - reflexivity.
  - intros H. now contradiction H.
  - intros _. exists [("closed", VBool false)], [("closed", "false")].
    split; reflexivity.
Defined.
